(** * kick.py: the frame decoder, the event dispatcher and the entity model

    A shallow embedding of [kick/ws.py] (class [PusherWebSocket]) and of
    [kick/message.py] (the lazily evaluated views over raw payloads),
    together with the part of Python's data model these two files rely
    on: values decoded from JSON, truthiness, subscripting, [dict.get],
    the [==] operator and exceptions. *)

From Stdlib Require Import Ascii SpecFloat.
From stdpp Require Import gmap strings list pretty.

Open Scope string_scope.
Open Scope list_scope.
Open Scope Z_scope.

(** ** Python values and exceptions *)

Module Py.

(** The exceptions the modelled code can raise. [JSONDecodeError] is the
    one [json.loads] raises on malformed text, [ValueError] the one
    [datetime.fromisoformat] raises. *)
Inductive exn : Set :=
| KeyError | TypeError | AttributeError | ValueError | JSONDecodeError.

Inductive result (A : Type) : Type :=
| Ok (a : A)
| Raise (e : exn).
Arguments Ok {A} a.
Arguments Raise {A} e.

#[global] Instance result_ret : MRet result := @Ok.
#[global] Instance result_bind : MBind result := λ A B f m,
  match m with Ok a => f a | Raise e => Raise e end.

(** What [json.loads] returns: [None], [bool], [int], [float], [str],
    [list] and [dict] with string keys. A dict keeps its keys in insertion
    order and is an association list here; [dict_lookup] returns the first
    binding of a key and [dict_set] never adds a second one. *)
#[local] Unset Elimination Schemes.
Inductive value : Type :=
| VNone
| VBool (b : bool)
| VInt (n : Z)
| VFloat (x : spec_float)
| VStr (s : string)
| VList (items : list value)
| VDict (fields : list (string * value)).
#[local] Set Elimination Schemes.

Fixpoint dict_lookup (k : string) (d : list (string * value)) : option value :=
  match d with
  | [] => None
  | (k', v) :: d' => if String.eqb k k' then Some v else dict_lookup k d'
  end.

(** [d[k] = v] on a dict: an existing key keeps its position. *)
Fixpoint dict_set (k : string) (v : value) (d : list (string * value))
  : list (string * value) :=
  match d with
  | [] => [(k, v)]
  | (k', v') :: d' =>
      if String.eqb k k' then (k, v) :: d' else (k', v') :: dict_set k v d'
  end.

(** [bool(v)]: [None], [False], zero, and the empty string, list and dict
    are false; every other value, NaN included, is true. *)
Definition bool (v : value) : Datatypes.bool :=
  match v with
  | VNone => false
  | VBool b => b
  | VInt n => negb (n =? 0)
  | VFloat (S754_zero _) => false
  | VFloat _ => true
  | VStr s => negb (String.eqb s EmptyString)
  | VList l => match l with [] => false | _ => true end
  | VDict d => match d with [] => false | _ => true end
  end.

(** [v[k]] for a string key [k]: only a dict can be subscripted by a
    string; a missing key is a [KeyError]. *)
Definition getitem (v : value) (k : string) : result value :=
  match v with
  | VDict d => match dict_lookup k d with
               | Some x => Ok x
               | None => Raise KeyError
               end
  | _ => Raise TypeError
  end.

(** [v.get(k)]: the bound value, or [None] when the key is absent; values
    other than dicts have no [get] attribute. *)
Definition get (v : value) (k : string) : result value :=
  match v with
  | VDict d => Ok (default VNone (dict_lookup k d))
  | _ => Raise AttributeError
  end.

(** [v[k] = x]. *)
Definition setitem (v : value) (k : string) (x : value) : result value :=
  match v with
  | VDict d => Ok (VDict (dict_set k x d))
  | _ => Raise TypeError
  end.

(** [hash(v)] is defined: lists and dicts are not hashable. *)
Definition hashable (v : value) : Datatypes.bool :=
  match v with
  | VList _ | VDict _ => false
  | _ => true
  end.

(** [v is True]: identity with the singleton [True]. *)
Definition is_True (v : value) : Datatypes.bool :=
  match v with VBool true => true | _ => false end.

(** *** Numbers

    [bool] is a subclass of [int]; ints and floats compare by their exact
    mathematical value. A number is a NaN, an infinity, or [m * 2^e]. *)
Inductive number : Set :=
| NNan
| NInf (negative : Datatypes.bool)
| NFin (m e : Z).

Definition number_of_float (x : spec_float) : number :=
  match x with
  | S754_zero _ => NFin 0 0
  | S754_infinity s => NInf s
  | S754_nan => NNan
  | S754_finite s m e => NFin (if s then Z.neg m else Z.pos m) e
  end.

Definition as_number (v : value) : option number :=
  match v with
  | VBool b => Some (NFin (if b then 1 else 0) 0)
  | VInt n => Some (NFin n 0)
  | VFloat x => Some (number_of_float x)
  | _ => None
  end.

Definition number_eqb (a b : number) : Datatypes.bool :=
  match a, b with
  | NInf s, NInf t => Bool.eqb s t
  | NFin m e, NFin m' e' =>
      let lo := Z.min e e' in
      (m * 2 ^ (e - lo) =? m' * 2 ^ (e' - lo))
  | _, _ => false
  end.

(** The integer a number is equal to, if any: the key an [int]-keyed dict
    finds for it ([hash(5.0) == hash(5)] and [5.0 == 5]). *)
Definition number_to_Z (a : number) : option Z :=
  match a with
  | NFin m e =>
      if 0 <=? e then Some (m * 2 ^ e)
      else if (m mod 2 ^ (- e) =? 0) then Some (m / 2 ^ (- e)) else None
  | _ => None
  end.

(** binary64 arithmetic, for [x + 1] and [x - 1] on a float. *)
Definition float_one : spec_float := SFone 53 1024.
Definition float_add (x y : spec_float) : spec_float := SFadd 53 1024 x y.
Definition float_sub (x y : spec_float) : spec_float := SFsub 53 1024 x y.

(** [v + 1] and [v - 1]. *)
Definition add_one (v : value) : result value :=
  match v with
  | VBool b => Ok (VInt ((if b then 1 else 0) + 1))
  | VInt n => Ok (VInt (n + 1))
  | VFloat x => Ok (VFloat (float_add x float_one))
  | _ => Raise TypeError
  end.

Definition sub_one (v : value) : result value :=
  match v with
  | VBool b => Ok (VInt ((if b then 1 else 0) - 1))
  | VInt n => Ok (VInt (n - 1))
  | VFloat x => Ok (VFloat (float_sub x float_one))
  | _ => Raise TypeError
  end.

(** *** [a == b] on decoded values

    Numbers compare by value, strings by content, lists element by
    element, dicts by size and then key by key; values of unrelated types
    are unequal. *)
Fixpoint equal (a b : value) {struct a} : Datatypes.bool :=
  match a, b with
  | VNone, VNone => true
  | VStr s, VStr t => String.eqb s t
  | VList l, VList l' =>
      (fix all2 (l l' : list value) {struct l} : Datatypes.bool :=
         match l, l' with
         | [], [] => true
         | x :: r, y :: r' => equal x y && all2 r r'
         | _, _ => false
         end) l l'
  | VDict d, VDict d' =>
      (length d =? length d')%nat &&
      (fix all (d : list (string * value)) {struct d} : Datatypes.bool :=
         match d with
         | [] => true
         | (k, x) :: r =>
             match dict_lookup k d' with
             | Some y => equal x y && all r
             | None => false
             end
         end) d
  | _, _ =>
      match as_number a, as_number b with
      | Some x, Some y => number_eqb x y
      | _, _ => false
      end
  end.

End Py.

(** ** A JSON decoder

    [PusherWebSocket] decodes text with Python's [json.loads] (through
    aiohttp's [WSMessage.json]). The dispatcher below is parametric in the
    decoder; [Json.loads] is a concrete one for the examples. It follows
    the grammar [json.loads] accepts, string escapes and the [NaN] and
    [Infinity] literals included, except for numbers with a fraction or an
    exponent and for [\u] escapes, which it does not decode: it answers
    [None] for a text that contains one. [None] stands for
    [JSONDecodeError]. *)

Module Json.

Definition dquote : ascii := "034"%char.
Definition backslash : ascii := "092"%char.

Definition is_ws (c : ascii) : bool :=
  (N_of_ascii c =? 32)%N || (N_of_ascii c =? 9)%N ||
  (N_of_ascii c =? 10)%N || (N_of_ascii c =? 13)%N.

Fixpoint skip_ws (s : string) : string :=
  match s with
  | String c s' => if is_ws c then skip_ws s' else s
  | EmptyString => s
  end.

Definition digit (c : ascii) : option Z :=
  let n := Z.of_N (N_of_ascii c) in
  if (48 <=? n) && (n <=? 57) then Some (n - 48) else None.

Fixpoint digits (acc : Z) (s : string) : Z * string :=
  match s with
  | String c s' =>
      match digit c with
      | Some d => digits (10 * acc + d) s'
      | None => (acc, s)
      end
  | EmptyString => (acc, s)
  end.

(** The integer part of a number: [0], or a non-zero digit and digits. *)
Definition scan_int (s : string) : option (Z * string) :=
  match s with
  | String c s' =>
      match digit c with
      | Some 0 => Some (0, s')
      | Some d => Some (digits d s')
      | None => None
      end
  | EmptyString => None
  end.

Definition starts_fraction (s : string) : bool :=
  match s with
  | String c _ =>
      (N_of_ascii c =? 46)%N || (N_of_ascii c =? 101)%N || (N_of_ascii c =? 69)%N
  | EmptyString => false
  end.

Fixpoint strip_prefix (p s : string) : option string :=
  match p, s with
  | EmptyString, _ => Some s
  | String a p', String b s' => if Ascii.eqb a b then strip_prefix p' s' else None
  | String _ _, EmptyString => None
  end.

Definition scan_number (s : string) : option (Py.value * string) :=
  let '(neg, s1) :=
    match strip_prefix "-" s with Some s' => (true, s') | None => (false, s) end in
  match strip_prefix "Infinity" s1 with
  | Some rest => Some (Py.VFloat (S754_infinity neg), rest)
  | None =>
      match scan_int s1 with
      | Some (n, rest) =>
          if starts_fraction rest then None
          else Some (Py.VInt (if neg then - n else n), rest)
      | None => None
      end
  end.

(** The character a backslash escape stands for. *)
Definition unescape (c : ascii) : option ascii :=
  if Ascii.eqb c dquote then Some dquote
  else if Ascii.eqb c backslash then Some backslash
  else if Ascii.eqb c "/" then Some "/"%char
  else if Ascii.eqb c "b" then Some "008"%char
  else if Ascii.eqb c "f" then Some "012"%char
  else if Ascii.eqb c "n" then Some "010"%char
  else if Ascii.eqb c "r" then Some "013"%char
  else if Ascii.eqb c "t" then Some "009"%char
  else None.

(** The body of a string, from after its opening quote to its closing
    quote; a raw control character is refused. *)
Fixpoint scan_string (s : string) : option (string * string) :=
  match s with
  | EmptyString => None
  | String c s' =>
      if Ascii.eqb c dquote then Some (EmptyString, s')
      else if Ascii.eqb c backslash then
        match s' with
        | String e s'' =>
            match unescape e, scan_string s'' with
            | Some ch, Some (body, rest) => Some (String ch body, rest)
            | _, _ => None
            end
        | EmptyString => None
        end
      else if (N_of_ascii c <? 32)%N then None
      else
        match scan_string s' with
        | Some (body, rest) => Some (String c body, rest)
        | None => None
        end
  end.

Definition scan_literal (s : string) : option (Py.value * string) :=
  match strip_prefix "null" s, strip_prefix "true" s,
        strip_prefix "false" s, strip_prefix "NaN" s with
  | Some rest, _, _, _ => Some (Py.VNone, rest)
  | _, Some rest, _, _ => Some (Py.VBool true, rest)
  | _, _, Some rest, _ => Some (Py.VBool false, rest)
  | _, _, _, Some rest => Some (Py.VFloat S754_nan, rest)
  | _, _, _, _ => scan_number s
  end.

(** One value at the head of [s]; [scan_items] and [scan_members] read the
    rest of an array and of an object. A repeated key keeps the position
    of its first occurrence and the value of its last. *)
Fixpoint scan_value (fuel : nat) (s : string) : option (Py.value * string) :=
  match fuel with
  | O => None
  | S fuel =>
      match s with
      | EmptyString => None
      | String c s' =>
          if Ascii.eqb c dquote then
            match scan_string s' with
            | Some (body, rest) => Some (Py.VStr body, rest)
            | None => None
            end
          else if Ascii.eqb c "{" then
            match strip_prefix "}" (skip_ws s') with
            | Some rest => Some (Py.VDict [], rest)
            | None => scan_members fuel [] (skip_ws s')
            end
          else if Ascii.eqb c "[" then
            match strip_prefix "]" (skip_ws s') with
            | Some rest => Some (Py.VList [], rest)
            | None => scan_items fuel [] (skip_ws s')
            end
          else scan_literal s
      end
  end
with scan_items (fuel : nat) (acc : list Py.value) (s : string)
  : option (Py.value * string) :=
  match fuel with
  | O => None
  | S fuel =>
      match scan_value fuel s with
      | Some (v, rest) =>
          match strip_prefix "," (skip_ws rest), strip_prefix "]" (skip_ws rest) with
          | Some rest', _ => scan_items fuel (acc ++ [v]) (skip_ws rest')
          | _, Some rest' => Some (Py.VList (acc ++ [v]), rest')
          | _, _ => None
          end
      | None => None
      end
  end
with scan_members (fuel : nat) (acc : list (string * Py.value)) (s : string)
  : option (Py.value * string) :=
  match fuel with
  | O => None
  | S fuel =>
      match strip_prefix (String dquote EmptyString) s with
      | None => None
      | Some s' =>
          match scan_string s' with
          | None => None
          | Some (k, rest) =>
              match strip_prefix ":" (skip_ws rest) with
              | None => None
              | Some rest' =>
                  match scan_value fuel (skip_ws rest') with
                  | None => None
                  | Some (v, rest'') =>
                      let acc' := Py.dict_set k v acc in
                      match strip_prefix "," (skip_ws rest''),
                            strip_prefix "}" (skip_ws rest'') with
                      | Some r, _ => scan_members fuel acc' (skip_ws r)
                      | _, Some r => Some (Py.VDict acc', r)
                      | _, _ => None
                      end
                  end
              end
          end
      end
  end.

(** [json.loads(s)]: one value, surrounded by whitespace only. *)
Definition loads (s : string) : option Py.value :=
  match scan_value (2 * String.length s + 2) (skip_ws s) with
  | Some (v, rest) =>
      match skip_ws rest with
      | EmptyString => Some v
      | String _ _ => None
      end
  | None => None
  end.

(** The examples write a frame with ['] for the double quote. *)
Fixpoint wire (s : string) : string :=
  match s with
  | EmptyString => EmptyString
  | String c s' => String (if Ascii.eqb c "'" then dquote else c) (wire s')
  end.

End Json.

(** ** kick/object.py and kick/utils.py *)

(** The classes of [kick/message.py], and [PartialLivestream], which the
    dispatcher constructs as well. *)
Inductive class : Set :=
| PartialAuthor | Author | PartialMessage | Message | MessageDeletedEventData
| PinnedMessage | UserBannedEventData | UserUnbannedEventData
| PartialLivestream.

#[global] Instance class_eq_dec : EqDecision class.
Proof. solve_decision. Defined.

(** Modelled from the spec: [HTTPDataclass], the base class defined in
    kick/object.py. Every entity is a view over the raw payload it was
    constructed with, kept as [_data], plus a resolver handle; the handle
    is the one client of the dispatcher and is left implicit. *)
Record instance : Type := new { __class__ : class; _data : Py.value }.

(** [class Author(PartialAuthor, ...)] is the only inheritance between the
    entity classes. *)
Definition bases (c : class) : list class :=
  match c with
  | Author => [PartialAuthor]
  | _ => []
  end.

Definition issubclass (c d : class) : bool :=
  bool_decide (c = d) || bool_decide (d ∈ bases c).

Definition isinstance (o : instance) (c : class) : bool :=
  issubclass (__class__ o) c.

(** Modelled from the spec: [cached_property], the decorator defined in
    kick/utils.py. "A derived value is computed by a supplied function on
    first access and the result is stored and returned on every
    subsequent access, bypassing recomputation." A [memo] is the cell of
    one cached field of one instance; [calls] counts the evaluations of
    the deriving function. An evaluation that raises has no result to
    store. *)
Record memo (V : Type) : Type :=
  Memo { this : instance; stored : option V; calls : nat }.
Arguments Memo {V} this stored calls.
Arguments this {V} m.
Arguments stored {V} m.
Arguments calls {V} m.

Definition fresh {V : Type} (self : instance) : memo V := Memo self None 0.

Definition cached_get {V : Type} (f : instance → Py.result V) (m : memo V)
  : Py.result V * memo V :=
  match stored m with
  | Some v => (Py.Ok v, m)
  | None =>
      match f (this m) with
      | Py.Ok v => (Py.Ok v, Memo (this m) (Some v) (S (calls m)))
      | Py.Raise e => (Py.Raise e, Memo (this m) None (S (calls m)))
      end
  end.

(** What a program can do to one cached field of an instance: read it, or
    replace the payload under the instance. *)
Inductive access : Type :=
| Read
| Mutate (data : Py.value).

Fixpoint accesses {V : Type} (f : instance → Py.result V) (ops : list access)
  (m : memo V) : list (Py.result V) * memo V :=
  match ops with
  | [] => ([], m)
  | Read :: ops' =>
      let '(r, m') := cached_get f m in
      let '(rs, m'') := accesses f ops' m' in
      (r :: rs, m'')
  | Mutate data :: ops' =>
      accesses f ops' (Memo (new (__class__ (this m)) data) (stored m) (calls m))
  end.

(** ** kick/message.py *)

(** [PartialAuthor], inherited by [Author]. *)
Definition PartialAuthor_id (self : instance) : Py.result Py.value :=
  Py.getitem (_data self) "id".

Definition PartialAuthor_slug (self : instance) : Py.result Py.value :=
  Py.getitem (_data self) "slug".

Definition PartialAuthor_username (self : instance) : Py.result Py.value :=
  Py.getitem (_data self) "username".

(** [Author]. *)
Definition Author_color (self : instance) : Py.result Py.value :=
  identity ← Py.getitem (_data self) "identity"; Py.getitem identity "color".

Definition Author_badges (self : instance) : Py.result Py.value :=
  identity ← Py.getitem (_data self) "identity"; Py.getitem identity "badges".

(** [PartialMessage]. *)
Definition PartialMessage_id (self : instance) : Py.result Py.value :=
  m ← Py.getitem (_data self) "original_message"; Py.getitem m "id".

Definition PartialMessage_content (self : instance) : Py.result Py.value :=
  m ← Py.getitem (_data self) "original_message"; Py.getitem m "content".

(** [Message]. The bodies of the [cached_property] fields are given as
    they are written; [cached_get] adds the memo cell. *)
Definition Message_id (self : instance) : Py.result Py.value :=
  Py.getitem (_data self) "id".

Definition Message_is_reply (self : instance) : Py.result bool :=
  metadata ← Py.get (_data self) "metadata"; mret (Py.bool metadata).

Definition Message_references (self : instance) : Py.result (option instance) :=
  data ← Py.get (_data self) "metadata";
  if negb (Py.bool data) then mret None
  else mret (Some (new PartialMessage data)).

(** kick/types/message.py: a [MessagePayload] is a [NormalMessagePayload],
    which has no [metadata] key, or a [ReplyMessagePayload], whose
    [metadata] is the map [ReplyMetaData]. [metadata_typed] holds of the
    fields that agree with this declaration on [metadata]; it admits
    [None] as well. *)
Definition metadata_typed (fields : list (string * Py.value)) : bool :=
  match Py.dict_lookup "metadata" fields with
  | None | Some Py.VNone | Some (Py.VDict _) => true
  | Some _ => false
  end.

Definition Message_chatroom_id (self : instance) : Py.result Py.value :=
  Py.getitem (_data self) "chatroom_id".

Definition Message_content (self : instance) : Py.result Py.value :=
  Py.getitem (_data self) "content".

Definition Message_author (self : instance) : Py.result instance :=
  sender ← Py.getitem (_data self) "sender"; mret (new Author sender).

Section CreatedAt.
(** [datetime.fromisoformat], from Python's library: [None] where it
    raises [ValueError]. *)
Context {datetime : Type} (fromisoformat : string → option datetime).

Definition Message_created_at (self : instance) : Py.result datetime :=
  created_at ← Py.getitem (_data self) "created_at";
  match created_at with
  | Py.VStr s =>
      match fromisoformat s with
      | Some t => Py.Ok t
      | None => Py.Raise Py.ValueError
      end
  | _ => Py.Raise Py.TypeError
  end.
End CreatedAt.

(** [MessageDeletedEventData]. *)
Definition MessageDeletedEventData_id (self : instance) : Py.result Py.value :=
  Py.getitem (_data self) "id".

Definition MessageDeletedEventData_message_id (self : instance)
  : Py.result Py.value :=
  m ← Py.getitem (_data self) "message"; Py.getitem m "id".

Definition MessageDeletedEventData_ai_moderated (self : instance)
  : Py.result bool :=
  v ← Py.get (_data self) "aiModerated"; mret (Py.bool v).

Definition MessageDeletedEventData_violated_rules (self : instance)
  : Py.result Py.value :=
  Py.get (_data self) "violatedRules".

(** [UserBannedEventData] and [UserUnbannedEventData]. *)
Definition UserBannedEventData_id (self : instance) : Py.result Py.value :=
  Py.getitem (_data self) "id".

Definition UserBannedEventData_is_permanent (self : instance) : Py.result bool :=
  v ← Py.get (_data self) "permanent"; mret (Py.bool v).

Definition UserBannedEventData_user (self : instance) : Py.result instance :=
  user ← Py.getitem (_data self) "user"; mret (new PartialAuthor user).

Definition UserBannedEventData_banned_by (self : instance) : Py.result instance :=
  by_ ← Py.getitem (_data self) "banned_by"; mret (new PartialAuthor by_).

Definition UserUnbannedEventData_id (self : instance) : Py.result Py.value :=
  Py.getitem (_data self) "id".

Definition UserUnbannedEventData_is_permanent (self : instance) : Py.result bool :=
  v ← Py.get (_data self) "permanent"; mret (Py.bool v).

Definition UserUnbannedEventData_user (self : instance) : Py.result instance :=
  user ← Py.getitem (_data self) "user"; mret (new PartialAuthor user).

Definition UserUnbannedEventData_unbanned_by (self : instance)
  : Py.result instance :=
  by_ ← Py.getitem (_data self) "unbanned_by"; mret (new PartialAuthor by_).

(** [PinnedMessage]: the bodies of [message] and [pinned_by]. *)
Definition PinnedMessage_message (self : instance) : Py.result instance :=
  message ← Py.getitem (_data self) "message"; mret (new Message message).

Definition PinnedMessage_pinned_by (self : instance) : Py.result instance :=
  by_ ← Py.getitem (_data self) "pinnedBy"; mret (new Author by_).

(** kick/types/message.py: the keys [MessageDeletedPayload] and
    [MessagePinPayload] declare. [has_exactly ks fields] holds of the
    fields whose keys are those of [ks] and no other. *)
Definition MessageDeletedPayload_keys : list string :=
  ["id"; "message_id"; "ai_moderated"; "violated_rules"].

Definition MessagePinPayload_keys : list string :=
  ["message"; "duration"; "pinned_by"].

Definition has_exactly (ks : list string) (fields : list (string * Py.value))
  : bool :=
  forallb (λ kv : string * Py.value, bool_decide (kv.1 ∈ ks)) fields
  && forallb (λ k, bool_decide (is_Some (Py.dict_lookup k fields))) ks.

(** *** Equality

    [o.id]: the [id] property the class of [o] finds. [PinnedMessage]
    defines none; [PartialLivestream] belongs to kick/livestream.py. *)
Definition getattr_id (o : instance) : Py.result Py.value :=
  match __class__ o with
  | PartialAuthor | Author => PartialAuthor_id o
  | PartialMessage => PartialMessage_id o
  | Message => Message_id o
  | MessageDeletedEventData => MessageDeletedEventData_id o
  | UserBannedEventData => UserBannedEventData_id o
  | UserUnbannedEventData => UserUnbannedEventData_id o
  | PinnedMessage | PartialLivestream => Py.Raise Py.AttributeError
  end.

(** The one body the six [__eq__] methods of the file share:
    [isinstance(other, self.__class__) and other.id == self.id]. *)
Definition __eq__ (self other : instance) : Py.result bool :=
  if isinstance other (__class__ self) then
    theirs ← getattr_id other;
    mine ← getattr_id self;
    mret (Py.equal theirs mine)
  else mret false.

(** The [__eq__] a class finds: its own, or for [Author] the one of
    [PartialAuthor]. [PinnedMessage] has only the identity comparison of
    [object], which this model of values without addresses leaves out. *)
Definition lookup_eq (c : class) : option (instance → instance → Py.result bool) :=
  match c with
  | PinnedMessage | PartialLivestream => None
  | _ => Some __eq__
  end.

(** [v == w]. Python asks the right operand first when its class is a
    proper subclass of the left operand's, and the left operand
    otherwise; the [__eq__] above never answers [NotImplemented], so the
    first answer is the result. [None]: the comparison is outside the
    model. *)
Definition op_eq (v w : instance) : option (Py.result bool) :=
  if negb (bool_decide (__class__ v = __class__ w))
     && issubclass (__class__ w) (__class__ v)
  then f ← lookup_eq (__class__ w); Some (f w v)
  else f ← lookup_eq (__class__ v); Some (f v w).

(** ** kick/ws.py *)

(** A reference to a [User] object held by the client. *)
Abbreviation loc := positive (only parsing).

(** What [client.dispatch] is called with after the event name: decoded
    values, freshly constructed entities, or a tracked user, passed by
    reference. *)
Inductive arg : Type :=
| Value (v : Py.value)
| Entity (o : instance)
| TrackedUser (u : loc).

(** Modelled from the spec: the client behind [self.http.client]
    (kick/client.py) and the sending side of the transport [self.ws].
    [_watched_users] is the registry of tracked users by channel id
    ("lookup_tracked_user(channel_id) -> UserHandle, fails if
    untracked"); [objects] holds the [_data] of each [User] object, so two
    references to one user see one [followers_count]; [dispatched] records
    the calls of [dispatch] and [sent] the frames given to [send_json],
    both oldest first. *)
Record client : Type := Client {
  _watched_users : gmap Z loc;
  objects : gmap loc Py.value;
  dispatched : list (string * list arg);
  sent : list Py.value;
}.

(** A coroutine of [PusherWebSocket]: it runs on the client state and
    either returns or raises; what it did before raising stays done. *)
Definition coro (A : Type) : Type := client → Py.result A * client.

#[global] Instance coro_ret : MRet coro := λ A a c, (Py.Ok a, c).
#[global] Instance coro_bind : MBind coro := λ A B f m c,
  match m c with
  | (Py.Ok a, c') => f a c'
  | (Py.Raise e, c') => (Py.Raise e, c')
  end.

Definition lift {A : Type} (r : Py.result A) : coro A := λ c, (r, c).

Definition dispatch (name : string) (args : list arg) : coro unit := λ c,
  (Py.Ok tt,
   Client (_watched_users c) (objects c) (dispatched c ++ [(name, args)]) (sent c)).

Definition send_json (payload : Py.value) : coro unit := λ c,
  (Py.Ok tt,
   Client (_watched_users c) (objects c) (dispatched c) (sent c ++ [payload])).

(** [self.http.client._watched_users[key]]: a list or a dict is not
    hashable; a number finds the entry of the integer it equals; anything
    else is a missing key. *)
Definition int_key (key : Py.value) : option Z :=
  match Py.as_number key with
  | Some x => Py.number_to_Z x
  | None => None
  end.

Definition watched_getitem (key : Py.value) : coro loc := λ c,
  if Py.hashable key then
    match int_key key with
    | Some n =>
        match _watched_users c !! n with
        | Some u => (Py.Ok u, c)
        | None => (Py.Raise Py.KeyError, c)
        end
    | None => (Py.Raise Py.KeyError, c)
    end
  else (Py.Raise Py.TypeError, c).

(** [user._data["followers_count"] += 1] (or [-= 1]), in place. In Python
    a reference always denotes an object; an unallocated one reads as
    [None] here. *)
Definition iop_followers_count (op : Py.value → Py.result Py.value) (u : loc)
  : coro unit := λ c,
  let data := default Py.VNone (objects c !! u) in
  match (old ← Py.getitem data "followers_count";
         new ← op old;
         Py.setitem data "followers_count" new) with
  | Py.Ok data' =>
      (Py.Ok tt,
       Client (_watched_users c) (<[u := data']> (objects c)) (dispatched c) (sent c))
  | Py.Raise e => (Py.Raise e, c)
  end.

Section PusherWebSocket.
(** [json.loads]; [None] where it raises [JSONDecodeError]. *)
Variable loads : string → option Py.value.

(** [raw_msg.json()] on a text frame. *)
Definition json (raw_msg : string) : Py.result Py.value :=
  match loads raw_msg with
  | Some v => Py.Ok v
  | None => Py.Raise Py.JSONDecodeError
  end.

(** [json.loads(v)]: the argument has to be a string. *)
Definition json_loads (v : Py.value) : Py.result Py.value :=
  match v with
  | Py.VStr s => json s
  | _ => Py.Raise Py.TypeError
  end.

(** [case "..."] of the [match] statement: the subject equals the
    literal. *)
Definition case (subject : Py.value) (literal : string) : bool :=
  Py.equal subject (Py.VStr literal).

(** The [match raw_data["event"]] statement of [poll_event]. *)
Definition match_event (subject data : Py.value) : coro unit :=
  if case subject "App\Events\ChatMessageEvent" then
    dispatch "message" [Entity (new Message data)]
  else if case subject "App\Events\MessageDeletedEvent" then
    dispatch "message_delete" [Entity (new MessageDeletedEventData data)]
  else if case subject "App\Events\PinnedMessageCreatedEvent" then
    dispatch "pin_message" [Entity (new PinnedMessage data)]
  else if case subject "App\Events\PinnedMessageDeletedEvent" then
    dispatch "pinned_message_delete" []
  else if case subject "App\Events\UserBannedEvent" then
    dispatch "user_banned" [Entity (new UserBannedEventData data)]
  else if case subject "App\Events\UserUnbannedEvent" then
    dispatch "user_unbanned" [Entity (new UserUnbannedEventData data)]
  else if case subject "App\Events\StreamerIsLive" then
    dispatch "livestream_start" [Entity (new PartialLivestream data)]
  else if case subject "App\Events\FollowersUpdated" then
    key ← lift (Py.getitem data "channel_id");
    user ← watched_getitem key;
    followed ← lift (Py.getitem data "followed");
    event ← (if Py.is_True followed
             then iop_followers_count Py.add_one user;; mret "follow"
             else iop_followers_count Py.sub_one user;; mret "unfollow");
    dispatch event [TrackedUser user]
  else mret tt.

(** [poll_event], from the frame [self.ws.receive()] returned. *)
Definition poll_event (raw_msg : string) : coro unit :=
  raw_data ← lift (json raw_msg);
  data ← lift (Py.getitem raw_data "data" ≫= json_loads);
  event ← lift (Py.getitem raw_data "event");
  dispatch "payload_receive" [Value event; Value data];;
  dispatch "raw_payload_receive" [Value raw_data];;
  subject ← lift (Py.getitem raw_data "event");
  match_event subject data.

(** What [poll_event] reads before its first [dispatch]: the outer
    frame, the event name and the inner payload. *)
Definition decode (raw_msg : string)
  : Py.result (Py.value * Py.value * Py.value) :=
  raw_data ← json raw_msg;
  data ← Py.getitem raw_data "data" ≫= json_loads;
  event ← Py.getitem raw_data "event";
  mret (raw_data, event, data).

(** [start]: [while not self.ws.closed: await self.poll_event()], on the
    frames the transport delivers before it reports closed. *)
Fixpoint start (frames : list string) : coro unit :=
  match frames with
  | [] => mret tt
  | raw_msg :: rest => poll_event raw_msg;; start rest
  end.
End PusherWebSocket.

(** The subscription manager. [f"{n}"] is the decimal numeral of [n]. *)
Definition subscribe_to_chatroom (chatroom_id : Z) : coro unit :=
  send_json
    (Py.VDict
       [("event", Py.VStr "pusher:subscribe");
        ("data", Py.VDict [("auth", Py.VStr EmptyString);
                           ("channel", Py.VStr ("chatrooms." +:+ pretty chatroom_id +:+ ".v2"))])]).

Definition unsubscribe_to_chatroom (chatroom_id : Z) : coro unit :=
  send_json
    (Py.VDict
       [("event", Py.VStr "pusher:unsubscribe");
        ("data", Py.VDict [("auth", Py.VStr EmptyString);
                           ("channel", Py.VStr ("chatrooms." +:+ pretty chatroom_id +:+ ".v2"))])]).

Definition watch_channel (channel_id : Z) : coro unit :=
  send_json
    (Py.VDict
       [("event", Py.VStr "pusher:subscribe");
        ("data", Py.VDict [("auth", Py.VStr EmptyString);
                           ("channel", Py.VStr ("channel." +:+ pretty channel_id))])]).

Definition unwatch_channel (channel_id : Z) : coro unit :=
  send_json
    (Py.VDict
       [("event", Py.VStr "pusher:subscribe");
        ("data", Py.VDict [("auth", Py.VStr EmptyString);
                           ("channel", Py.VStr ("channel." +:+ pretty channel_id))])]).

(** The eight literals of the [match] statement. *)
Definition event_tags : list string :=
  ["App\Events\ChatMessageEvent"; "App\Events\MessageDeletedEvent";
   "App\Events\PinnedMessageCreatedEvent"; "App\Events\PinnedMessageDeletedEvent";
   "App\Events\UserBannedEvent"; "App\Events\UserUnbannedEvent";
   "App\Events\StreamerIsLive"; "App\Events\FollowersUpdated"].

(** The two notifications [poll_event] dispatches for every frame. *)
Definition generic_notifications (raw_data event data : Py.value)
  : list (string * list arg) :=
  [("payload_receive", [Value event; Value data]);
   ("raw_payload_receive", [Value raw_data])].

Definition notify (c : client) (ns : list (string * list arg)) : client :=
  Client (_watched_users c) (objects c) (dispatched c ++ ns) (sent c).

(** The cases of the [match] statement that construct an entity, or
    nothing, and dispatch it: the literal, the notification and the class
    constructed over the inner payload. *)
Definition event_table : list (string * (string * option class)) :=
  [("App\Events\ChatMessageEvent", ("message", Some Message));
   ("App\Events\MessageDeletedEvent", ("message_delete", Some MessageDeletedEventData));
   ("App\Events\PinnedMessageCreatedEvent", ("pin_message", Some PinnedMessage));
   ("App\Events\PinnedMessageDeletedEvent", ("pinned_message_delete", None));
   ("App\Events\UserBannedEvent", ("user_banned", Some UserBannedEventData));
   ("App\Events\UserUnbannedEvent", ("user_unbanned", Some UserUnbannedEventData));
   ("App\Events\StreamerIsLive", ("livestream_start", Some PartialLivestream))].

Definition constructed (cls : option class) (data : Py.value) : list arg :=
  match cls with
  | Some k => [Entity (new k data)]
  | None => []
  end.

(** ** Example frames and clients

    The frames are written with ['] for the double quote; [Json.wire]
    gives the text on the wire. *)

Definition follow_frame : string :=
  Json.wire "{'event':'App\\Events\\FollowersUpdated','data':'{\'channel_id\':5,\'followed\':true}'}".

Definition unfollow_frame : string :=
  Json.wire "{'event':'App\\Events\\FollowersUpdated','data':'{\'channel_id\':5,\'followed\':false}'}".

Definition truthy_frame : string :=
  Json.wire "{'event':'App\\Events\\FollowersUpdated','data':'{\'channel_id\':5,\'followed\':1}'}".

Definition untracked_frame : string :=
  Json.wire "{'event':'App\\Events\\FollowersUpdated','data':'{\'channel_id\':6,\'followed\':true}'}".

Definition message_frame : string :=
  Json.wire "{'event':'App\\Events\\ChatMessageEvent','data':'{\'id\':\'1\',\'chatroom_id\':5,\'content\':\'hi\',\'created_at\':\'2024-01-01T00:00:00\',\'sender\':{\'id\':9,\'username\':\'u\',\'slug\':\'u\',\'identity\':{\'color\':\'#fff\',\'badges\':[]}}}'}".

Definition unknown_frame : string :=
  Json.wire "{'event':'pusher:pong','data':'{}'}".

Definition unpin_frame : string :=
  Json.wire "{'event':'App\\Events\\PinnedMessageDeletedEvent','data':'{}'}".

Definition malformed_frame : string :=
  Json.wire "{'event':'App\\Events\\PinnedMessageDeletedEvent','data':'{'}".

(** A client that tracks one user, with three followers, under channel 5
    and has dispatched and sent nothing yet. *)
Definition tracked_user : Py.value :=
  Py.VDict [("id", Py.VInt 9); ("followers_count", Py.VInt 3)].

Definition tracking : client :=
  Client {[ 5 := 1%positive ]} {[ 1%positive := tracked_user ]} [] [].

(** The fields of a reply to the message [m1]. *)
Definition reply_fields : list (string * Py.value) :=
  [("id", Py.VStr "m2");
   ("metadata",
    Py.VDict
      [("original_sender", Py.VDict [("id", Py.VInt 9); ("username", Py.VStr "u")]);
       ("original_message", Py.VDict [("id", Py.VStr "m1"); ("content", Py.VStr "hi")])])].

(** Two snapshots of the author 9 with different slugs, and the partial
    view of the same author. *)
Definition author_then : instance :=
  new Author
    (Py.VDict
       [("id", Py.VInt 9); ("username", Py.VStr "u"); ("slug", Py.VStr "u");
        ("identity", Py.VDict [("color", Py.VStr "#fff"); ("badges", Py.VList [])])]).

Definition author_now : instance :=
  new Author
    (Py.VDict
       [("id", Py.VInt 9); ("username", Py.VStr "U2"); ("slug", Py.VStr "u2");
        ("identity", Py.VDict [("color", Py.VStr "#000"); ("badges", Py.VList [])])]).

Definition partial_author : instance :=
  new PartialAuthor
    (Py.VDict [("id", Py.VInt 9); ("username", Py.VStr "u"); ("slug", Py.VStr "u")]).

(** A message from that author. *)
Definition message_fields : list (string * Py.value) :=
  [("id", Py.VStr "1"); ("chatroom_id", Py.VInt 5); ("content", Py.VStr "hi");
   ("created_at", Py.VStr "2024-01-01T00:00:00"); ("sender", _data author_then)].

(** [FollowersUpdated] frames that cannot be handled, and a client whose
    tracked user has no counter. *)
Definition no_followed_frame : string :=
  Json.wire "{'event':'App\\Events\\FollowersUpdated','data':'{\'channel_id\':5}'}".

Definition list_channel_frame : string :=
  Json.wire "{'event':'App\\Events\\FollowersUpdated','data':'{\'channel_id\':[5],\'followed\':true}'}".

Definition uncounted : client :=
  Client {[ 5 := 1%positive ]} {[ 1%positive := Py.VDict [("id", Py.VInt 9)] ]} [] [].

(** A ban of the author 9, a third snapshot of that author, and payloads
    with the keys kick/types/message.py declares. *)
Definition ban_event : Py.value :=
  Py.VDict
    [("id", Py.VStr "b1"); ("user", _data partial_author);
     ("banned_by", Py.VDict [("id", Py.VInt 1); ("username", Py.VStr "mod"); ("slug", Py.VStr "mod")]);
     ("permanent", Py.VBool true)].

Definition author_later : instance :=
  new Author
    (Py.VDict
       [("id", Py.VInt 9); ("username", Py.VStr "U3"); ("slug", Py.VStr "u3");
        ("identity", Py.VDict [("color", Py.VStr "#0f0"); ("badges", Py.VList [])])]).

Definition declared_deleted_fields : list (string * Py.value) :=
  [("id", Py.VStr "d1"); ("message_id", Py.VStr "1");
   ("ai_moderated", Py.VBool true); ("violated_rules", Py.VList [Py.VStr "spam"])].

Definition declared_pin_fields : list (string * Py.value) :=
  [("message", Py.VDict message_fields); ("duration", Py.VInt 20);
   ("pinned_by", _data author_then)].

(** An envelope whose [data] is an object instead of a string, and a chat
    message whose inner payload is a list. *)
Definition parsed_data_frame : string :=
  Json.wire "{'event':'App\\Events\\PinnedMessageDeletedEvent','data':{}}".

Definition list_message_frame : string :=
  Json.wire "{'event':'App\\Events\\ChatMessageEvent','data':'[1]'}".

(** ** Basic facts *)

Lemma is_True_spec (v : Py.value) : Py.is_True v = true ↔ v = Py.VBool true.
Proof.
  split; [| intros ->; reflexivity].
  destruct v as [ | [] | | | | | ]; simpl; congruence.
Qed.

Lemma case_false_of_not_str (v : Py.value) (t : string) :
  v ≠ Py.VStr t → case v t = false.
Proof.
  intros Hne. unfold case.
  destruct v as [ | b | n | x | s | l | d ]; simpl; try reflexivity.
  all: try (apply String.eqb_neq; congruence).
Qed.

Lemma case_true (t : string) : case (Py.VStr t) t = true.
Proof. unfold case. simpl. apply String.eqb_refl. Qed.

Section Decoding.
Variable loads : string → option Py.value.

Lemma decode_inv raw_msg raw_data event data :
  decode loads raw_msg = Py.Ok (raw_data, event, data) →
  json loads raw_msg = Py.Ok raw_data
  ∧ Py.getitem raw_data "data" ≫= json_loads loads = Py.Ok data
  ∧ Py.getitem raw_data "event" = Py.Ok event.
Proof.
  unfold decode.
  destruct (json loads raw_msg) as [rd|e]; simpl; [|discriminate].
  destruct (Py.getitem rd "data" ≫= json_loads loads) as [d|e] eqn:Hd;
    simpl; [|discriminate].
  destruct (Py.getitem rd "event") as [ev|e] eqn:Hev; simpl; [|discriminate].
  intros [= <- <- <-]. auto.
Qed.

(** [poll_event] is the decoding, the two generic notifications and the
    [match] statement, in this order. *)
Lemma poll_event_decode raw_msg c :
  poll_event loads raw_msg c =
  match decode loads raw_msg with
  | Py.Ok (raw_data, event, data) =>
      match_event event data
        (notify c (generic_notifications raw_data event data))
  | Py.Raise e => (Py.Raise e, c)
  end.
Proof.
  unfold poll_event, decode, lift, mbind, coro_bind, Py.result_bind; simpl.
  destruct (json loads raw_msg) as [rd|e]; simpl; [|reflexivity].
  destruct (Py.getitem rd "data") as [x|e]; simpl; [|reflexivity].
  destruct (json_loads loads x) as [d|e]; simpl; [|reflexivity].
  destruct (Py.getitem rd "event") as [ev|e]; simpl; [|reflexivity].
  unfold notify, generic_notifications; simpl.
  rewrite <- app_assoc. reflexivity.
Qed.
End Decoding.

(** ** The read loop *)

Section ReadLoop.
Variable loads : string → option Py.value.

Lemma start_cons raw_msg rest c :
  start loads (raw_msg :: rest) c =
  match poll_event loads raw_msg c with
  | (Py.Ok _, c') => start loads rest c'
  | (Py.Raise e, c') => (Py.Raise e, c')
  end.
Proof. reflexivity. Qed.

Lemma poll_event_raises raw_msg e c :
  decode loads raw_msg = Py.Raise e →
  poll_event loads raw_msg c = (Py.Raise e, c).
Proof. intros H. rewrite poll_event_decode, H. reflexivity. Qed.

(** A malformed outer frame and a malformed inner [data] string both
    make the decoding raise [JSONDecodeError]. *)
Lemma decode_malformed_frame raw_msg :
  loads raw_msg = None → decode loads raw_msg = Py.Raise Py.JSONDecodeError.
Proof. intros H. unfold decode, json. rewrite H. reflexivity. Qed.

Lemma decode_malformed_data raw_msg raw_data s :
  loads raw_msg = Some raw_data →
  Py.getitem raw_data "data" = Py.Ok (Py.VStr s) →
  loads s = None →
  decode loads raw_msg = Py.Raise Py.JSONDecodeError.
Proof.
  intros H Hd Hs. unfold decode, json. rewrite H. simpl.
  rewrite Hd. simpl. unfold json. rewrite Hs. reflexivity.
Qed.

(** C1, as amended: a frame whose decoding fails makes [poll_event]
    raise with nothing dispatched, and the exception leaves the read
    loop [start] as well; the frames after it are not read. *)
Theorem decode_failure_leaves_start raw_msg rest e c :
  decode loads raw_msg = Py.Raise e →
  poll_event loads raw_msg c = (Py.Raise e, c)
  ∧ start loads (raw_msg :: rest) c = (Py.Raise e, c).
Proof.
  intros H. rewrite start_cons, (poll_event_raises _ _ _ H). auto.
Qed.
End ReadLoop.

Lemma decode_failure_leaves_start_witness :
  decode Json.loads malformed_frame = Py.Raise Py.JSONDecodeError
  ∧ poll_event Json.loads malformed_frame tracking
    = (Py.Raise Py.JSONDecodeError, tracking)
  ∧ start Json.loads [malformed_frame; unpin_frame] tracking
    = (Py.Raise Py.JSONDecodeError, tracking).
Proof.
  split; [vm_compute; reflexivity |].
  apply (decode_failure_leaves_start Json.loads malformed_frame [unpin_frame]).
  vm_compute; reflexivity.
Defined.

(** C1, as stated, fails: the inner [data] of the first frame is the
    malformed text [{]; the loop raises out instead of going on to the
    second frame, which on its own is dispatched. *)
Lemma malformed_data_stops_start :
  start Json.loads [malformed_frame; unpin_frame] tracking
  = (Py.Raise Py.JSONDecodeError, tracking)
  ∧ map fst (dispatched (start Json.loads [unpin_frame] tracking).2)
    = ["payload_receive"; "raw_payload_receive"; "pinned_message_delete"].
Proof. split; vm_compute; reflexivity. Qed.

(** ** The dispatcher *)

Lemma dispatch_eq name args c :
  dispatch name args c = (Py.Ok tt, notify c [(name, args)]).
Proof. reflexivity. Qed.

Lemma notify_notify c ns ns' : notify (notify c ns) ns' = notify c (ns ++ ns').
Proof. unfold notify; simpl. by rewrite app_assoc. Qed.

Lemma iop_followers_count_dispatched op u c :
  dispatched (iop_followers_count op u c).2 = dispatched c.
Proof.
  unfold iop_followers_count.
  destruct (_ ← Py.getitem _ _; _); reflexivity.
Qed.

(** A tag that is none of the eight literals falls through the [match]
    statement. *)
Lemma match_event_unknown event data c :
  Forall (λ t, event ≠ Py.VStr t) event_tags →
  match_event event data c = (Py.Ok tt, c).
Proof.
  intros H. unfold event_tags in H.
  repeat match goal with
         | H : Forall _ (_ :: _) |- _ => apply Forall_cons in H as [?%case_false_of_not_str H]
         end.
  unfold match_event.
  repeat match goal with H : case _ _ = false |- _ => rewrite H; clear H end.
  reflexivity.
Qed.

(** Whatever the [match] statement does, it only adds to what was
    dispatched, and it adds at most one notification. *)
Lemma match_event_dispatched event data c :
  ∃ named, dispatched (match_event event data c).2 = dispatched c ++ named
           ∧ (length named ≤ 1)%nat.
Proof.
  unfold match_event.
  repeat match goal with
         | |- context [if case ?s ?t then _ else _] =>
             destruct (case s t);
             [ eexists [_]; split; [reflexivity | simpl; lia] | ]
         end.
  destruct (case event "App\Events\FollowersUpdated");
    [| exists []; rewrite app_nil_r; split; [reflexivity | simpl; lia]].
  unfold mbind, coro_bind, lift, watched_getitem.
  destruct (Py.getitem data "channel_id") as [key|e];
    [| exists []; rewrite app_nil_r; split; [reflexivity | simpl; lia]].
  destruct (Py.hashable key);
    [| exists []; rewrite app_nil_r; split; [reflexivity | simpl; lia]].
  destruct (int_key key) as [n|];
    [| exists []; rewrite app_nil_r; split; [reflexivity | simpl; lia]].
  destruct (_watched_users c !! n) as [u|];
    [| exists []; rewrite app_nil_r; split; [reflexivity | simpl; lia]].
  destruct (Py.getitem data "followed") as [followed|e];
    [| exists []; rewrite app_nil_r; split; [reflexivity | simpl; lia]].
  destruct (Py.is_True followed).
  - pose proof (iop_followers_count_dispatched Py.add_one u c) as Hd.
    destruct (iop_followers_count Py.add_one u c) as [[[]|e] c']; simpl in *.
    + eexists [_]. rewrite Hd. split; [reflexivity | simpl; lia].
    + exists []. rewrite app_nil_r. split; [assumption | simpl; lia].
  - pose proof (iop_followers_count_dispatched Py.sub_one u c) as Hd.
    destruct (iop_followers_count Py.sub_one u c) as [[[]|e] c']; simpl in *.
    + eexists [_]. rewrite Hd. split; [reflexivity | simpl; lia].
    + exists []. rewrite app_nil_r. split; [assumption | simpl; lia].
Qed.

Section Dispatcher.
Variable loads : string → option Py.value.

(** C3, as amended: for every decoded frame [poll_event] dispatches
    [payload_receive], carrying the event name and the inner payload,
    and then [raw_payload_receive], carrying the outer frame, before
    anything else; a tag that is none of the eight known ones adds no
    further notification and [poll_event] returns normally. *)
Theorem generic_notifications_come_first raw_msg raw_data event data c :
  decode loads raw_msg = Py.Ok (raw_data, event, data) →
  (∃ named,
      dispatched (poll_event loads raw_msg c).2
      = dispatched c ++ generic_notifications raw_data event data ++ named
      ∧ (length named ≤ 1)%nat)
  ∧ (Forall (λ t, event ≠ Py.VStr t) event_tags →
     poll_event loads raw_msg c
     = (Py.Ok tt, notify c (generic_notifications raw_data event data))).
Proof.
  intros H. rewrite poll_event_decode, H. split.
  - destruct (match_event_dispatched event data
                (notify c (generic_notifications raw_data event data)))
      as (named & Hn & Hlen).
    exists named. rewrite Hn. simpl. by rewrite <- app_assoc.
  - intros Hu. by apply match_event_unknown.
Qed.
End Dispatcher.

Lemma generic_notifications_come_first_witness :
  poll_event Json.loads unknown_frame tracking
  = (Py.Ok tt,
     notify tracking
       (generic_notifications
          (Py.VDict [("event", Py.VStr "pusher:pong"); ("data", Py.VStr "{}")])
          (Py.VStr "pusher:pong") (Py.VDict []))).
Proof.
  refine (proj2 (generic_notifications_come_first
                   Json.loads unknown_frame _ _ _ tracking _) _).
  - vm_compute; reflexivity.
  - unfold event_tags. repeat constructor; discriminate.
Defined.

(** C3, as stated, fails on the order: for a frame with the unknown tag
    [pusher:pong] the first notification is [payload_receive] and the
    second [raw_payload_receive]. *)
Lemma payload_receive_precedes_raw_payload_receive :
  map fst (dispatched (poll_event Json.loads unknown_frame tracking).2)
  = ["payload_receive"; "raw_payload_receive"]
  ∧ map fst (dispatched (poll_event Json.loads unknown_frame tracking).2)
    ≠ ["raw_payload_receive"; "payload_receive"].
Proof. split; [vm_compute; reflexivity | vm_compute; discriminate]. Qed.

(** A chat message frame is decoded twice, announced by the two generic
    notifications and dispatched as a [Message] over its inner payload. *)
Example message_frame_dispatched :
  (poll_event Json.loads message_frame tracking).1 = Py.Ok tt
  ∧ map fst (dispatched (poll_event Json.loads message_frame tracking).2)
    = ["payload_receive"; "raw_payload_receive"; "message"]
  ∧ last (dispatched (poll_event Json.loads message_frame tracking).2)
    = Some ("message", [Entity (new Message (Py.VDict message_fields))])
  ∧ Message_id (new Message (Py.VDict message_fields)) = Py.Ok (Py.VStr "1")
  ∧ (Message_author (new Message (Py.VDict message_fields)) ≫= PartialAuthor_username)
    = Py.Ok (Py.VStr "u").
Proof. repeat split; vm_compute; reflexivity. Qed.

(** ** [FollowersUpdated] *)

Lemma dict_lookup_set_eq k v d : Py.dict_lookup k (Py.dict_set k v d) = Some v.
Proof.
  induction d as [|[k' v'] d IH]; simpl.
  - by rewrite String.eqb_refl.
  - destruct (String.eqb k k') eqn:E; simpl.
    + by rewrite String.eqb_refl.
    + by rewrite E.
Qed.

Lemma dict_lookup_set_ne k k' v d :
  k ≠ k' → Py.dict_lookup k' (Py.dict_set k v d) = Py.dict_lookup k' d.
Proof.
  intros Hne. induction d as [|[k0 v0] d IH]; simpl.
  - apply String.eqb_neq in Hne. rewrite String.eqb_sym in Hne. by rewrite Hne.
  - destruct (String.eqb k k0) eqn:E; simpl.
    + apply String.eqb_eq in E as <-.
      apply String.eqb_neq in Hne. rewrite String.eqb_sym in Hne. by rewrite Hne.
    + by rewrite IH.
Qed.

Lemma int_key_hashable key n : int_key key = Some n → Py.hashable key = true.
Proof. destruct key; simpl; auto; discriminate. Qed.

(** The [FollowersUpdated] case for a tracked channel: the counter of the
    tracked object is updated in place and the object is dispatched by
    reference. *)
Lemma match_event_followers_updated data key n u fields old new followed c :
  Py.getitem data "channel_id" = Py.Ok key →
  int_key key = Some n →
  _watched_users c !! n = Some u →
  objects c !! u = Some (Py.VDict fields) →
  Py.dict_lookup "followers_count" fields = Some old →
  Py.getitem data "followed" = Py.Ok followed →
  (if Py.is_True followed then Py.add_one old else Py.sub_one old) = Py.Ok new →
  match_event (Py.VStr "App\Events\FollowersUpdated") data c
  = (Py.Ok tt,
     Client (_watched_users c)
       (<[u := Py.VDict (Py.dict_set "followers_count" new fields)]> (objects c))
       (dispatched c
        ++ [(if Py.is_True followed then "follow" else "unfollow", [TrackedUser u])])
       (sent c)).
Proof.
  intros Hkey Hn Hu Hobj Hold Hf Hnew.
  unfold match_event.
  repeat match goal with
         | |- context [if case ?s ?t then _ else _] =>
             change (case s t) with false; cbv iota
         end.
  rewrite case_true.
  unfold mbind, coro_bind, lift, watched_getitem.
  rewrite Hkey, (int_key_hashable _ _ Hn), Hn, Hu, Hf.
  unfold iop_followers_count, Py.result_bind.
  revert Hnew.
  destruct (Py.is_True followed); intros Hnew;
    rewrite Hobj; simpl; rewrite Hold;
    unfold mbind, Py.result_bind; rewrite Hnew; reflexivity.
Qed.

(** The same case for a channel that is not tracked. *)
Lemma match_event_untracked data key c :
  Py.getitem data "channel_id" = Py.Ok key →
  Py.hashable key = true →
  (∀ n, int_key key = Some n → _watched_users c !! n = None) →
  match_event (Py.VStr "App\Events\FollowersUpdated") data c
  = (Py.Raise Py.KeyError, c).
Proof.
  intros Hkey Hh Hn.
  unfold match_event.
  repeat match goal with
         | |- context [if case ?s ?t then _ else _] =>
             change (case s t) with false; cbv iota
         end.
  rewrite case_true.
  unfold mbind, coro_bind, lift, watched_getitem.
  rewrite Hkey, Hh.
  destruct (int_key key) as [n|]; [| reflexivity].
  by rewrite (Hn n eq_refl).
Qed.

Section FollowersUpdated.
Variable loads : string → option Py.value.

(** C5: a [FollowersUpdated] frame for a tracked channel with
    [followed: true] adds one to the [followers_count] of the tracked
    object and dispatches [follow] with that object; with
    [followed: false] it subtracts one and dispatches [unfollow]. *)
Theorem followers_updated_follow_unfollow
  raw_msg raw_data data key n u fields count (followed : bool) c :
  decode loads raw_msg
  = Py.Ok (raw_data, Py.VStr "App\Events\FollowersUpdated", data) →
  Py.getitem data "channel_id" = Py.Ok key →
  int_key key = Some n →
  _watched_users c !! n = Some u →
  objects c !! u = Some (Py.VDict fields) →
  Py.dict_lookup "followers_count" fields = Some (Py.VInt count) →
  Py.getitem data "followed" = Py.Ok (Py.VBool followed) →
  let count' := if followed then count + 1 else count - 1 in
  let fields' := Py.dict_set "followers_count" (Py.VInt count') fields in
  poll_event loads raw_msg c
  = (Py.Ok tt,
     Client (_watched_users c) (<[u := Py.VDict fields']> (objects c))
       (dispatched c
        ++ generic_notifications raw_data
             (Py.VStr "App\Events\FollowersUpdated") data
        ++ [(if followed then "follow" else "unfollow", [TrackedUser u])])
       (sent c))
  ∧ Py.dict_lookup "followers_count" fields' = Some (Py.VInt count').
Proof.
  intros Hdec Hkey Hn Hu Hobj Hold Hf count' fields'.
  split; [| apply dict_lookup_set_eq].
  rewrite poll_event_decode, Hdec.
  erewrite match_event_followers_updated; eauto.
  - simpl. rewrite <- app_assoc. by destruct followed.
  - by destruct followed.
Qed.

(** C9: on a tracked channel every [followed] other than the boolean
    [True] itself, truthy or not, subtracts one and dispatches
    [unfollow]; [True] alone adds one and dispatches [follow]. *)
Theorem followed_is_True_selects_follow
  raw_msg raw_data data key n u fields count followed c :
  decode loads raw_msg
  = Py.Ok (raw_data, Py.VStr "App\Events\FollowersUpdated", data) →
  Py.getitem data "channel_id" = Py.Ok key →
  int_key key = Some n →
  _watched_users c !! n = Some u →
  objects c !! u = Some (Py.VDict fields) →
  Py.dict_lookup "followers_count" fields = Some (Py.VInt count) →
  Py.getitem data "followed" = Py.Ok followed →
  (followed ≠ Py.VBool true →
   poll_event loads raw_msg c
   = (Py.Ok tt,
      Client (_watched_users c)
        (<[u := Py.VDict (Py.dict_set "followers_count" (Py.VInt (count - 1)) fields)]>
           (objects c))
        (dispatched c
         ++ generic_notifications raw_data
              (Py.VStr "App\Events\FollowersUpdated") data
         ++ [("unfollow", [TrackedUser u])])
        (sent c)))
  ∧ (followed = Py.VBool true →
     poll_event loads raw_msg c
     = (Py.Ok tt,
        Client (_watched_users c)
          (<[u := Py.VDict (Py.dict_set "followers_count" (Py.VInt (count + 1)) fields)]>
             (objects c))
          (dispatched c
           ++ generic_notifications raw_data
                (Py.VStr "App\Events\FollowersUpdated") data
           ++ [("follow", [TrackedUser u])])
          (sent c))).
Proof.
  intros Hdec Hkey Hn Hu Hobj Hold Hf.
  split; intros Hfollowed.
  - assert (Py.is_True followed = false) as Hnot.
    { destruct (Py.is_True followed) eqn:E; [| reflexivity].
      by apply is_True_spec in E. }
    rewrite poll_event_decode, Hdec.
    erewrite match_event_followers_updated; eauto.
    + rewrite Hnot. simpl. by rewrite <- app_assoc.
    + by rewrite Hnot.
  - subst followed.
    rewrite poll_event_decode, Hdec.
    erewrite match_event_followers_updated; eauto.
    simpl. by rewrite <- app_assoc.
Qed.

(** C6: a [FollowersUpdated] frame for a channel that is not tracked
    makes [poll_event] raise [KeyError], after the two generic
    notifications and without [follow] or [unfollow]; the exception
    leaves [start] as well and no object is changed. *)
Theorem followers_updated_untracked_raises
  raw_msg rest raw_data data key c :
  decode loads raw_msg
  = Py.Ok (raw_data, Py.VStr "App\Events\FollowersUpdated", data) →
  Py.getitem data "channel_id" = Py.Ok key →
  Py.hashable key = true →
  (∀ n, int_key key = Some n → _watched_users c !! n = None) →
  let c' :=
    notify c (generic_notifications raw_data
                (Py.VStr "App\Events\FollowersUpdated") data) in
  poll_event loads raw_msg c = (Py.Raise Py.KeyError, c')
  ∧ start loads (raw_msg :: rest) c = (Py.Raise Py.KeyError, c').
Proof.
  intros Hdec Hkey Hh Hn c'.
  assert (poll_event loads raw_msg c = (Py.Raise Py.KeyError, c')) as Hp.
  { rewrite poll_event_decode, Hdec.
    by apply match_event_untracked with (key := key). }
  split; [exact Hp |]. by rewrite start_cons, Hp.
Qed.
End FollowersUpdated.

Lemma followers_updated_follow_unfollow_witness :
  poll_event Json.loads follow_frame tracking
  = (Py.Ok tt,
     Client {[ 5 := 1%positive ]}
       (<[ 1%positive := Py.VDict [("id", Py.VInt 9); ("followers_count", Py.VInt 4)] ]>
          {[ 1%positive := tracked_user ]})
       [("payload_receive",
         [Value (Py.VStr "App\Events\FollowersUpdated");
          Value (Py.VDict [("channel_id", Py.VInt 5); ("followed", Py.VBool true)])]);
        ("raw_payload_receive",
         [Value (Py.VDict
                   [("event", Py.VStr "App\Events\FollowersUpdated");
                    ("data", Py.VStr (Json.wire "{'channel_id':5,'followed':true}"))])]);
        ("follow", [TrackedUser 1%positive])]
       []).
Proof.
  refine (proj1 (followers_updated_follow_unfollow Json.loads follow_frame
                   _ _ (Py.VInt 5) 5 1%positive
                   [("id", Py.VInt 9); ("followers_count", Py.VInt 3)] 3 true
                   tracking _ _ _ _ _ _ _)); vm_compute; reflexivity.
Defined.

Lemma followed_is_True_selects_follow_witness :
  poll_event Json.loads truthy_frame tracking
  = (Py.Ok tt,
     Client {[ 5 := 1%positive ]}
       (<[ 1%positive := Py.VDict [("id", Py.VInt 9); ("followers_count", Py.VInt 2)] ]>
          {[ 1%positive := tracked_user ]})
       [("payload_receive",
         [Value (Py.VStr "App\Events\FollowersUpdated");
          Value (Py.VDict [("channel_id", Py.VInt 5); ("followed", Py.VInt 1)])]);
        ("raw_payload_receive",
         [Value (Py.VDict
                   [("event", Py.VStr "App\Events\FollowersUpdated");
                    ("data", Py.VStr (Json.wire "{'channel_id':5,'followed':1}"))])]);
        ("unfollow", [TrackedUser 1%positive])]
       []).
Proof.
  refine (proj1 (followed_is_True_selects_follow Json.loads truthy_frame
                   _ _ (Py.VInt 5) 5 1%positive
                   [("id", Py.VInt 9); ("followers_count", Py.VInt 3)] 3 (Py.VInt 1)
                   tracking _ _ _ _ _ _ _) _);
    try (vm_compute; reflexivity).
  discriminate.
Defined.

Lemma followers_updated_untracked_raises_witness :
  start Json.loads [untracked_frame; follow_frame] tracking
  = (Py.Raise Py.KeyError,
     Client {[ 5 := 1%positive ]} {[ 1%positive := tracked_user ]}
       [("payload_receive",
         [Value (Py.VStr "App\Events\FollowersUpdated");
          Value (Py.VDict [("channel_id", Py.VInt 6); ("followed", Py.VBool true)])]);
        ("raw_payload_receive",
         [Value (Py.VDict
                   [("event", Py.VStr "App\Events\FollowersUpdated");
                    ("data", Py.VStr (Json.wire "{'channel_id':6,'followed':true}"))])])]
       []).
Proof.
  refine (proj2 (followers_updated_untracked_raises Json.loads untracked_frame
                   [follow_frame] _ _ (Py.VInt 6) tracking _ _ _ _));
    try (vm_compute; reflexivity).
  intros n [= <-]. vm_compute; reflexivity.
Defined.

(** A follow and then an unfollow bring the counter of the tracked user
    from 3 to 4 and back to 3. *)
Example follow_then_unfollow :
  (start Json.loads [follow_frame; unfollow_frame] tracking).1 = Py.Ok tt
  ∧ objects (start Json.loads [follow_frame] tracking).2 !! 1%positive
    = Some (Py.VDict [("id", Py.VInt 9); ("followers_count", Py.VInt 4)])
  ∧ objects (start Json.loads [follow_frame; unfollow_frame] tracking).2 !! 1%positive
    = Some (Py.VDict [("id", Py.VInt 9); ("followers_count", Py.VInt 3)])
  ∧ map fst (dispatched (start Json.loads [follow_frame; unfollow_frame] tracking).2)
    = ["payload_receive"; "raw_payload_receive"; "follow";
       "payload_receive"; "raw_payload_receive"; "unfollow"].
Proof. repeat split; vm_compute; reflexivity. Qed.

(** ** The subscription manager *)

(** C7 fails on the code: [unwatch_channel] sends the frame
    [watch_channel] sends, with the event [pusher:subscribe], where
    [unsubscribe_to_chatroom] sends [pusher:unsubscribe]. *)
Theorem unwatch_channel_sends_subscribe (channel_id : Z) (c : client) :
  unwatch_channel channel_id c = watch_channel channel_id c
  ∧ sent (unwatch_channel channel_id c).2
    = sent c ++
      [Py.VDict
         [("event", Py.VStr "pusher:subscribe");
          ("data", Py.VDict [("auth", Py.VStr EmptyString);
                             ("channel", Py.VStr ("channel." +:+ pretty channel_id))])]]
  ∧ sent (unsubscribe_to_chatroom channel_id c).2
    = sent c ++
      [Py.VDict
         [("event", Py.VStr "pusher:unsubscribe");
          ("data", Py.VDict [("auth", Py.VStr EmptyString);
                             ("channel",
                              Py.VStr ("chatrooms." +:+ pretty channel_id +:+ ".v2"))])]].
Proof. repeat split. Qed.

Example unwatch_channel_5 :
  sent (unwatch_channel 5 tracking).2
  = [Py.VDict
       [("event", Py.VStr "pusher:subscribe");
        ("data", Py.VDict [("auth", Py.VStr EmptyString);
                           ("channel", Py.VStr "channel.5")])]].
Proof. vm_compute; reflexivity. Qed.

(** ** Accessors of optional keys *)

(** C10: on a payload without the key, [is_permanent] of both ban events
    and [ai_moderated] return [False] and [violated_rules] returns [None];
    none of them raises. *)
Theorem optional_keys_default (fields : list (string * Py.value)) :
  (Py.dict_lookup "permanent" fields = None →
   UserBannedEventData_is_permanent (new UserBannedEventData (Py.VDict fields))
   = Py.Ok false
   ∧ UserUnbannedEventData_is_permanent (new UserUnbannedEventData (Py.VDict fields))
     = Py.Ok false)
  ∧ (Py.dict_lookup "aiModerated" fields = None →
     MessageDeletedEventData_ai_moderated
       (new MessageDeletedEventData (Py.VDict fields)) = Py.Ok false)
  ∧ (Py.dict_lookup "violatedRules" fields = None →
     MessageDeletedEventData_violated_rules
       (new MessageDeletedEventData (Py.VDict fields)) = Py.Ok Py.VNone).
Proof.
  unfold UserBannedEventData_is_permanent, UserUnbannedEventData_is_permanent,
    MessageDeletedEventData_ai_moderated, MessageDeletedEventData_violated_rules,
    Py.get.
  split; [| split]; intros H; simpl; rewrite H; auto.
Qed.

Lemma optional_keys_default_witness :
  (UserBannedEventData_is_permanent
     (new UserBannedEventData (Py.VDict [("id", Py.VStr "e1")])) = Py.Ok false
   ∧ UserUnbannedEventData_is_permanent
       (new UserUnbannedEventData (Py.VDict [("id", Py.VStr "e1")])) = Py.Ok false)
  ∧ MessageDeletedEventData_ai_moderated
      (new MessageDeletedEventData (Py.VDict [("id", Py.VStr "e1")])) = Py.Ok false
  ∧ MessageDeletedEventData_violated_rules
      (new MessageDeletedEventData (Py.VDict [("id", Py.VStr "e1")])) = Py.Ok Py.VNone.
Proof.
  destruct (optional_keys_default [("id", Py.VStr "e1")]) as (Hp & Ha & Hv).
  split; [apply Hp; reflexivity |].
  split; [apply Ha; reflexivity | apply Hv; reflexivity].
Defined.

(** ** [Message.is_reply] and [Message.references] *)

(** C4: over a payload whose [metadata], where present, is a map, as
    [MessagePayload] declares it, [is_reply] is true exactly when
    [metadata] is present and a non-empty map; [references] is [None]
    exactly when [is_reply] is false, and is otherwise a [PartialMessage]
    whose [id] is [metadata["original_message"]["id"]] of the payload. *)
Theorem is_reply_iff_metadata (fields : list (string * Py.value)) :
  let self := new Message (Py.VDict fields) in
  metadata_typed fields = true →
  (Message_is_reply self = Py.Ok true
   ↔ ∃ d, Py.dict_lookup "metadata" fields = Some (Py.VDict d) ∧ d ≠ [])
  ∧ (∃ b, Message_is_reply self = Py.Ok b)
  ∧ (Message_references self = Py.Ok None ↔ Message_is_reply self = Py.Ok false)
  ∧ (Message_is_reply self = Py.Ok true →
     ∃ r, Message_references self = Py.Ok (Some r)
          ∧ __class__ r = PartialMessage
          ∧ PartialMessage_id r
            = (metadata ← Py.getitem (Py.VDict fields) "metadata";
               original ← Py.getitem metadata "original_message";
               Py.getitem original "id")).
Proof.
  intros self Htyped. unfold metadata_typed in Htyped.
  unfold Message_is_reply, Message_references, PartialMessage_id, self; simpl.
  destruct (Py.dict_lookup "metadata" fields) as [v|] eqn:Hmd; simpl.
  - destruct v as [ | | | | | | d]; try discriminate; simpl.
    + repeat split; try discriminate; eauto.
      intros (d & [=] & _).
    + destruct d as [|kv d]; simpl.
      * repeat split; try discriminate; eauto.
        intros (d' & [= <-] & Hne). by destruct Hne.
      * repeat split; try discriminate; eauto.
  - repeat split; try discriminate; eauto.
    intros (d & [=] & _).
Qed.

Lemma is_reply_iff_metadata_witness :
  Message_is_reply (new Message (Py.VDict reply_fields)) = Py.Ok true
  ∧ ∃ r, Message_references (new Message (Py.VDict reply_fields)) = Py.Ok (Some r)
         ∧ PartialMessage_id r = Py.Ok (Py.VStr "m1").
Proof.
  destruct (is_reply_iff_metadata reply_fields eq_refl) as (Hreply & _ & _ & Href).
  assert (Message_is_reply (new Message (Py.VDict reply_fields)) = Py.Ok true) as H.
  { apply Hreply. eexists. split; [reflexivity | discriminate]. }
  split; [exact H |].
  destruct (Href H) as (r & Hr & _ & Hid).
  exists r. split; [exact Hr | exact Hid].
Defined.

(** A message that is not a reply has no [metadata]. *)
Example message_is_not_a_reply :
  Message_is_reply (new Message (Py.VDict message_fields)) = Py.Ok false
  ∧ Message_references (new Message (Py.VDict message_fields)) = Py.Ok None.
Proof. split; reflexivity. Qed.

(** ** Equality of entities *)

Lemma getattr_id_lookup_eq o i :
  getattr_id o = Py.Ok i → lookup_eq (__class__ o) = Some __eq__.
Proof. unfold getattr_id. destruct (__class__ o); simpl; congruence. Qed.

Lemma issubclass_refl c : issubclass c c = true.
Proof. unfold issubclass. by rewrite bool_decide_eq_true_2. Qed.

(** Between different classes [isinstance] holds in one direction at
    most, and [==] asks the operand for which it fails. *)
Lemma issubclass_antisym c d : c ≠ d → issubclass d c = true → issubclass c d = false.
Proof. destruct c, d; intros Hne; try reflexivity; try discriminate; by destruct Hne. Qed.

(** C2, as amended: [a == b] holds exactly when [a] and [b] have the same
    class and equal ids, in either order and whatever else their payloads
    hold; so an [Author] and a [PartialAuthor] are never equal. *)
Theorem op_eq_same_class_and_id (a b : instance) (i j : Py.value) :
  getattr_id a = Py.Ok i →
  getattr_id b = Py.Ok j →
  op_eq a b
  = Some (Py.Ok (bool_decide (__class__ a = __class__ b) && Py.equal j i))
  ∧ op_eq b a
    = Some (Py.Ok (bool_decide (__class__ a = __class__ b) && Py.equal i j)).
Proof.
  intros Ha Hb.
  pose proof (getattr_id_lookup_eq _ _ Ha) as Ea.
  pose proof (getattr_id_lookup_eq _ _ Hb) as Eb.
  unfold op_eq, __eq__, isinstance. rewrite Ea, Eb; simpl.
  destruct (decide (__class__ a = __class__ b)) as [E|Hne].
  - rewrite !bool_decide_eq_true_2 by congruence. simpl.
    unfold __eq__, isinstance.
    rewrite E, issubclass_refl, Ha, Hb. simpl. auto.
  - rewrite !bool_decide_eq_false_2 by congruence. simpl.
    unfold __eq__, isinstance.
    destruct (issubclass (__class__ b) (__class__ a)) eqn:Eba;
      destruct (issubclass (__class__ a) (__class__ b)) eqn:Eab; simpl; auto.
    rewrite (issubclass_antisym _ _ Hne Eba) in Eab. discriminate.
Qed.

Lemma op_eq_same_class_and_id_witness :
  op_eq author_then author_now = Some (Py.Ok true)
  ∧ op_eq author_now author_then = Some (Py.Ok true).
Proof.
  apply (op_eq_same_class_and_id author_then author_now (Py.VInt 9) (Py.VInt 9));
    reflexivity.
Defined.

(** C2, as stated, fails: an [Author] and a [PartialAuthor] with the same
    id are unequal in both orders; only the method called directly on the
    partial view accepts the full one. *)
Lemma author_differs_from_partial_author :
  PartialAuthor_id author_then = PartialAuthor_id partial_author
  ∧ op_eq author_then partial_author = Some (Py.Ok false)
  ∧ op_eq partial_author author_then = Some (Py.Ok false)
  ∧ __eq__ author_then partial_author = Py.Ok false
  ∧ __eq__ partial_author author_then = Py.Ok true.
Proof. repeat split. Qed.

(** ** Cached fields *)

Section CachedProperty.
Context {V : Type} (f : instance → Py.result V).

(** Once the cell is filled, reads return what it holds and the
    deriving function is not called, whatever happens to the payload. *)
Lemma accesses_stored ops (m : memo V) v :
  stored m = Some v →
  Forall (λ r, r = Py.Ok v) (accesses f ops m).1
  ∧ stored (accesses f ops m).2 = Some v
  ∧ calls (accesses f ops m).2 = calls m.
Proof.
  revert m. induction ops as [|[|data] ops IH]; intros m Hm; simpl.
  - auto.
  - unfold cached_get. rewrite Hm.
    destruct (IH m Hm) as (Hall & Hst & Hc).
    destruct (accesses f ops m) as [rs m']; simpl in *. auto.
  - apply (IH (Memo (new (__class__ (this m)) data) (stored m) (calls m))), Hm.
Qed.

(** C8: when the first read of a cached field returns a value, the
    deriving function has been evaluated once; every later read
    returns that value and evaluates nothing, also after the payload
    was mutated. *)
Theorem cached_property_evaluated_once (self : instance) (v : V) ops :
  f self = Py.Ok v →
  Forall (λ r, r = Py.Ok v) (accesses f (Read :: ops) (fresh self)).1
  ∧ calls (accesses f (Read :: ops) (fresh self)).2 = 1%nat
  ∧ stored (accesses f (Read :: ops) (fresh self)).2 = Some v.
Proof.
  intros Hf. simpl. unfold cached_get, fresh; simpl. rewrite Hf.
  destruct (accesses_stored ops (Memo self (Some v) 1) v eq_refl)
    as (Hall & Hst & Hc).
  destruct (accesses f ops (Memo self (Some v) 1)) as [rs m']; simpl in *.
  auto.
Qed.
End CachedProperty.

Lemma cached_property_evaluated_once_witness :
  let run :=
    accesses Message_author
      [Read; Read; Mutate (Py.VDict []); Read]
      (fresh (new Message (Py.VDict message_fields))) in
  run.1 = [Py.Ok author_then; Py.Ok author_then; Py.Ok author_then]
  ∧ calls run.2 = 1%nat.
Proof.
  intros run.
  destruct (cached_property_evaluated_once Message_author
              (new Message (Py.VDict message_fields)) author_then
              [Read; Mutate (Py.VDict []); Read] eq_refl) as (_ & Hc & _).
  split; [reflexivity | exact Hc].
Defined.

(** ** More on the dispatcher *)

Lemma case_true_inv (v : Py.value) (t : string) : case v t = true → v = Py.VStr t.
Proof.
  unfold case.
  destruct v as [ | b | n | x | s | l | d ]; simpl; try discriminate.
  intros ->%String.eqb_eq. reflexivity.
Qed.

Lemma notify_nil c : notify c [] = c.
Proof. destruct c. unfold notify; simpl. by rewrite app_nil_r. Qed.

(** What the [match] statement can do: dispatch at most one notification
    and return, or, in the [FollowersUpdated] case only, raise with
    nothing done, or update one tracked object and dispatch it. *)
Lemma match_event_outcome event data c :
  (∃ named, match_event event data c = (Py.Ok tt, notify c named)
            ∧ (length named ≤ 1)%nat)
  ∨ (event = Py.VStr "App\Events\FollowersUpdated"
     ∧ ((∃ e, match_event event data c = (Py.Raise e, c))
        ∨ (∃ n u d name,
              _watched_users c !! n = Some u
              ∧ match_event event data c
                = (Py.Ok tt,
                   Client (_watched_users c) (<[u := d]> (objects c))
                     (dispatched c ++ [(name, [TrackedUser u])]) (sent c))))).
Proof.
  unfold match_event.
  repeat match goal with
         | |- context [if case ?s ?t then _ else _] =>
             destruct (case s t);
             [ left; eexists [_]; split; [reflexivity | simpl; lia] | ]
         end.
  destruct (case event "App\Events\FollowersUpdated") eqn:Hcase;
    [| left; exists []; rewrite notify_nil; split; [reflexivity | simpl; lia]].
  right. split; [by apply case_true_inv |].
  unfold mbind, coro_bind, lift, watched_getitem.
  destruct (Py.getitem data "channel_id") as [key|e]; [| left; eauto].
  destruct (Py.hashable key); [| left; eauto].
  destruct (int_key key) as [n|]; [| left; eauto].
  destruct (_watched_users c !! n) as [u|] eqn:Hu; [| left; eauto].
  destruct (Py.getitem data "followed") as [followed|e]; [| left; eauto].
  unfold iop_followers_count.
  destruct (Py.is_True followed);
    match goal with
    | |- context [match ?r with Py.Ok _ => _ | Py.Raise _ => _ end] =>
        destruct r as [d|e]; simpl; [right | left; eauto]
    end.
  - exists n, u, d, "follow". auto.
  - exists n, u, d, "unfollow". auto.
Qed.

Section MoreDispatcher.
Variable loads : string → option Py.value.

(** X1. Once a frame is decoded, only the [FollowersUpdated] case can make
    [poll_event] raise: constructing an entity never does, whatever the
    shape of the inner payload. *)
Theorem poll_event_raises_only_for_followers_updated
  raw_msg raw_data event data e c :
  decode loads raw_msg = Py.Ok (raw_data, event, data) →
  (poll_event loads raw_msg c).1 = Py.Raise e →
  event = Py.VStr "App\Events\FollowersUpdated".
Proof.
  intros Hdec. rewrite poll_event_decode, Hdec.
  destruct (match_event_outcome event data
              (notify c (generic_notifications raw_data event data)))
    as [(named & -> & _) | [-> _]]; [discriminate | reflexivity].
Qed.

(** X2. The dispatch table: each of the seven tags that construct dispatches
    its own notification after the two generic ones, carrying an entity
    of its class over exactly the inner payload (and nothing for
    [PinnedMessageDeletedEvent]); nothing else changes. *)
Theorem dispatch_table raw_msg raw_data data tag name cls c :
  (tag, (name, cls)) ∈ event_table →
  decode loads raw_msg = Py.Ok (raw_data, Py.VStr tag, data) →
  poll_event loads raw_msg c
  = (Py.Ok tt,
     notify c (generic_notifications raw_data (Py.VStr tag) data
               ++ [(name, constructed cls data)])).
Proof.
  intros Hin Hdec. rewrite poll_event_decode, Hdec.
  unfold event_table in Hin.
  repeat match type of Hin with
         | _ ∈ _ :: _ => apply elem_of_cons in Hin as [[= -> -> ->] | Hin]
         end;
    [ .. | by apply elem_of_nil in Hin ];
    unfold match_event;
    repeat match goal with
           | |- context [if case ?s ?t then _ else _] =>
               first [ change (case s t) with false; cbv iota
                     | change (case s t) with true; cbv iota ]
           end;
    rewrite dispatch_eq, notify_notify; reflexivity.
Qed.

(** X3. When [poll_event] raises, nothing was changed but the record of
    dispatched notifications, which holds the two generic ones if the
    frame could be decoded and nothing new otherwise. *)
Theorem poll_event_failure_atomic raw_msg e c c' :
  poll_event loads raw_msg c = (Py.Raise e, c') →
  _watched_users c' = _watched_users c
  ∧ objects c' = objects c
  ∧ sent c' = sent c
  ∧ (dispatched c' = dispatched c
     ∨ ∃ raw_data event data,
         decode loads raw_msg = Py.Ok (raw_data, event, data)
         ∧ dispatched c'
           = dispatched c ++ generic_notifications raw_data event data).
Proof.
  rewrite poll_event_decode.
  destruct (decode loads raw_msg) as [[[raw_data event] data]|e'] eqn:Hdec.
  - destruct (match_event_outcome event data
                (notify c (generic_notifications raw_data event data)))
      as [(named & -> & _) | [_ [[e' ->] | (n & u & d & name & _ & ->)]]];
      try discriminate.
    intros [= -> <-]. simpl. repeat split. right. eauto.
  - intros [= -> <-]. auto.
Qed.

Lemma poll_event_effects raw_msg c :
  let c' := (poll_event loads raw_msg c).2 in
  _watched_users c' = _watched_users c
  ∧ sent c' = sent c
  ∧ (∃ more, dispatched c' = dispatched c ++ more ∧ (length more ≤ 3)%nat)
  ∧ (objects c' = objects c
     ∨ ∃ n u d, _watched_users c !! n = Some u
                ∧ objects c' = <[u := d]> (objects c)).
Proof.
  intros c'. unfold c'. rewrite poll_event_decode.
  destruct (decode loads raw_msg) as [[[raw_data event] data]|e'] eqn:Hdec.
  - destruct (match_event_outcome event data
                (notify c (generic_notifications raw_data event data)))
      as [(named & -> & Hlen) | [_ [[e' ->] | (n & u & d & name & Hu & ->)]]];
      simpl.
    + repeat split; [| by left].
      eexists. rewrite <- app_assoc. split; [reflexivity |].
      rewrite length_app. simpl. lia.
    + repeat split; [| by left].
      eexists. split; [reflexivity | simpl; lia].
    + repeat split; [| right; eauto].
      eexists. rewrite <- app_assoc. split; [reflexivity | simpl; lia].
  - simpl. repeat split; [| by left].
    exists []. rewrite app_nil_r. split; [reflexivity | simpl; lia].
Qed.

(** X4. Whatever the frame, [poll_event] never touches the registry of
    tracked users nor the frames sent, only adds to what was dispatched,
    three notifications at most, and changes at most one object, which is
    a tracked user. *)
Theorem poll_event_frame raw_msg c :
  let c' := (poll_event loads raw_msg c).2 in
  _watched_users c' = _watched_users c
  ∧ sent c' = sent c
  ∧ (∃ more, dispatched c' = dispatched c ++ more ∧ (length more ≤ 3)%nat)
  ∧ (objects c' = objects c
     ∨ ∃ n u d, _watched_users c !! n = Some u
                ∧ objects c' = <[u := d]> (objects c)).
Proof. exact (poll_event_effects raw_msg c). Qed.

(** ** More on the read loop *)

Lemma start_app_eq frames frames' c :
  start loads (frames ++ frames') c
  = match start loads frames c with
    | (Py.Ok _, c') => start loads frames' c'
    | (Py.Raise e, c') => (Py.Raise e, c')
    end.
Proof.
  revert c. induction frames as [|raw_msg frames IH]; intros c; [reflexivity |].
  rewrite <- app_comm_cons, !start_cons.
  destruct (poll_event loads raw_msg c) as [[[]|e] c1]; [apply IH | reflexivity].
Qed.

(** X5. Reading two batches of frames in one run of [start] is reading the
    first batch and, if it did not raise, the second from the state the
    first left. *)
Theorem start_app frames frames' c :
  start loads (frames ++ frames') c
  = match start loads frames c with
    | (Py.Ok _, c') => start loads frames' c'
    | (Py.Raise e, c') => (Py.Raise e, c')
    end.
Proof. apply start_app_eq. Qed.

(** X6. [start] ends at the first frame that raises, wherever it is: the
    frames before it are handled, the frames after it are not read and
    have no influence on the result. *)
Theorem start_stops_at_first_failure frames raw_msg rest e c c1 c2 :
  start loads frames c = (Py.Ok tt, c1) →
  poll_event loads raw_msg c1 = (Py.Raise e, c2) →
  start loads (frames ++ raw_msg :: rest) c = (Py.Raise e, c2).
Proof.
  intros Hpre Hbad. rewrite start_app_eq, Hpre, start_cons, Hbad. reflexivity.
Qed.

(** X7. Over any run of [start], raising or not, the registry of tracked
    users and the frames sent stay as they were, and the notifications
    dispatched before stay in place, in their order, followed by at most
    three new ones per frame. *)
Theorem start_frame frames c :
  let c' := (start loads frames c).2 in
  _watched_users c' = _watched_users c
  ∧ sent c' = sent c
  ∧ ∃ more, dispatched c' = dispatched c ++ more
            ∧ (length more ≤ 3 * length frames)%nat.
Proof.
  revert c. induction frames as [|raw_msg frames IH]; intros c.
  - simpl. repeat split. exists []. rewrite app_nil_r. split; [reflexivity | simpl; lia].
  - cbv zeta. rewrite start_cons.
    destruct (poll_event_effects raw_msg c) as (Hw & Hs & (more & Hd & Hlen) & _).
    destruct (poll_event loads raw_msg c) as [[[]|e] c1]; cbn [fst snd] in *.
    + destruct (IH c1) as (Hw' & Hs' & more' & Hd' & Hlen').
      rewrite Hw', Hs', Hd', Hw, Hs, Hd. repeat split.
      exists (more ++ more'). rewrite app_assoc. split; [reflexivity |].
      rewrite length_app. simpl. lia.
    + repeat split; try assumption. exists more. split; [assumption | simpl; lia].
Qed.
End MoreDispatcher.

Lemma poll_event_raises_only_for_followers_updated_witness :
  (poll_event Json.loads untracked_frame tracking).1 = Py.Raise Py.KeyError
  ∧ Py.VStr "App\Events\FollowersUpdated" = Py.VStr "App\Events\FollowersUpdated".
Proof.
  split; [vm_compute; reflexivity |].
  refine (poll_event_raises_only_for_followers_updated Json.loads untracked_frame
            _ _ _ Py.KeyError tracking _ _); vm_compute; reflexivity.
Defined.

Lemma dispatch_table_witness :
  poll_event Json.loads message_frame tracking
  = (Py.Ok tt,
     notify tracking
       (generic_notifications
          (Py.VDict
             [("event", Py.VStr "App\Events\ChatMessageEvent");
              ("data",
               Py.VStr (Json.wire "{'id':'1','chatroom_id':5,'content':'hi','created_at':'2024-01-01T00:00:00','sender':{'id':9,'username':'u','slug':'u','identity':{'color':'#fff','badges':[]}}}"))])
          (Py.VStr "App\Events\ChatMessageEvent") (Py.VDict message_fields)
        ++ [("message", [Entity (new Message (Py.VDict message_fields))])])).
Proof.
  refine (dispatch_table Json.loads message_frame _ _ _ "message" (Some Message)
            tracking _ _).
  - unfold event_table. apply elem_of_cons. by left.
  - vm_compute; reflexivity.
Defined.

Lemma poll_event_failure_atomic_witness :
  _watched_users (poll_event Json.loads untracked_frame tracking).2
  = _watched_users tracking
  ∧ objects (poll_event Json.loads untracked_frame tracking).2 = objects tracking
  ∧ sent (poll_event Json.loads untracked_frame tracking).2 = sent tracking.
Proof.
  destruct (poll_event_failure_atomic Json.loads untracked_frame Py.KeyError tracking
              (poll_event Json.loads untracked_frame tracking).2)
    as (Hw & Ho & Hs & _); [vm_compute; reflexivity |].
  auto.
Defined.

Lemma start_stops_at_first_failure_witness :
  start Json.loads ([follow_frame] ++ untracked_frame :: [unfollow_frame]) tracking
  = (Py.Raise Py.KeyError,
     (poll_event Json.loads untracked_frame
        (start Json.loads [follow_frame] tracking).2).2).
Proof.
  apply (start_stops_at_first_failure Json.loads [follow_frame] untracked_frame
           [unfollow_frame] Py.KeyError tracking
           (start Json.loads [follow_frame] tracking).2);
    vm_compute; reflexivity.
Defined.

(** ** More on [FollowersUpdated] *)

Lemma dict_set_set k v v' d :
  Py.dict_set k v (Py.dict_set k v' d) = Py.dict_set k v d.
Proof.
  induction d as [|[k0 v0] d IH]; simpl.
  - by rewrite String.eqb_refl.
  - destruct (String.eqb k k0) eqn:E; simpl.
    + by rewrite String.eqb_refl.
    + by rewrite E, IH.
Qed.

Lemma dict_set_id k v d : Py.dict_lookup k d = Some v → Py.dict_set k v d = d.
Proof.
  induction d as [|[k0 v0] d IH]; simpl; [discriminate |].
  destruct (String.eqb k k0) eqn:E.
  - apply String.eqb_eq in E as ->. by intros [= ->].
  - intros H. by rewrite IH.
Qed.

(** The [FollowersUpdated] case once the tracked object is found and
    [followed] is read: the counter is updated, and the notification
    follows only if that did not raise. *)
Lemma match_event_followers_updated_tracked data key n u followed c :
  Py.getitem data "channel_id" = Py.Ok key →
  int_key key = Some n →
  _watched_users c !! n = Some u →
  Py.getitem data "followed" = Py.Ok followed →
  match_event (Py.VStr "App\Events\FollowersUpdated") data c
  = match iop_followers_count
            (if Py.is_True followed then Py.add_one else Py.sub_one) u c with
    | (Py.Ok _, c') =>
        dispatch (if Py.is_True followed then "follow" else "unfollow")
          [TrackedUser u] c'
    | (Py.Raise e, c') => (Py.Raise e, c')
    end.
Proof.
  intros Hkey Hn Hu Hf.
  unfold match_event.
  repeat match goal with
         | |- context [if case ?s ?t then _ else _] =>
             change (case s t) with false; cbv iota
         end.
  rewrite case_true.
  unfold mbind, coro_bind, lift, watched_getitem.
  rewrite Hkey, (int_key_hashable _ _ Hn), Hn, Hu, Hf.
  destruct (Py.is_True followed).
  - destruct (iop_followers_count Py.add_one u c) as [[[]|e] c']; reflexivity.
  - destruct (iop_followers_count Py.sub_one u c) as [[[]|e] c']; reflexivity.
Qed.

Lemma iop_followers_count_missing op u fields c :
  objects c !! u = Some (Py.VDict fields) →
  Py.dict_lookup "followers_count" fields = None →
  iop_followers_count op u c = (Py.Raise Py.KeyError, c).
Proof.
  intros Hobj Hnone. unfold iop_followers_count.
  rewrite Hobj; simpl. by rewrite Hnone.
Qed.

Lemma iop_followers_count_raises op u fields old e c :
  objects c !! u = Some (Py.VDict fields) →
  Py.dict_lookup "followers_count" fields = Some old →
  op old = Py.Raise e →
  iop_followers_count op u c = (Py.Raise e, c).
Proof.
  intros Hobj Hold Hop. unfold iop_followers_count.
  rewrite Hobj; simpl. rewrite Hold. unfold mbind, Py.result_bind.
  by rewrite Hop.
Qed.

Lemma add_sub_one_not_number old :
  Py.as_number old = None →
  Py.add_one old = Py.Raise Py.TypeError ∧ Py.sub_one old = Py.Raise Py.TypeError.
Proof. destruct old; simpl; auto; discriminate. Qed.

Section MoreFollowersUpdated.
Variable loads : string → option Py.value.

Lemma poll_event_followers_updated
  raw_msg raw_data data key n u fields old new followed c :
  decode loads raw_msg
  = Py.Ok (raw_data, Py.VStr "App\Events\FollowersUpdated", data) →
  Py.getitem data "channel_id" = Py.Ok key →
  int_key key = Some n →
  _watched_users c !! n = Some u →
  objects c !! u = Some (Py.VDict fields) →
  Py.dict_lookup "followers_count" fields = Some old →
  Py.getitem data "followed" = Py.Ok followed →
  (if Py.is_True followed then Py.add_one old else Py.sub_one old) = Py.Ok new →
  poll_event loads raw_msg c
  = (Py.Ok tt,
     Client (_watched_users c)
       (<[u := Py.VDict (Py.dict_set "followers_count" new fields)]> (objects c))
       (dispatched c
        ++ generic_notifications raw_data
             (Py.VStr "App\Events\FollowersUpdated") data
        ++ [(if Py.is_True followed then "follow" else "unfollow", [TrackedUser u])])
       (sent c)).
Proof.
  intros Hdec Hkey Hn Hu Hobj Hold Hf Hnew.
  rewrite poll_event_decode, Hdec.
  erewrite match_event_followers_updated; eauto.
  simpl. by rewrite <- app_assoc.
Qed.

(** X8. A follow and an unfollow of the same tracked user, in either order,
    leave every object as it was: the counter is back at its value and
    nothing else was touched. *)
Theorem follow_unfollow_round_trip
  follow unfollow raw_data1 data1 key1 raw_data2 data2 key2 other
  n u fields count c :
  decode loads follow
  = Py.Ok (raw_data1, Py.VStr "App\Events\FollowersUpdated", data1) →
  Py.getitem data1 "channel_id" = Py.Ok key1 →
  int_key key1 = Some n →
  Py.getitem data1 "followed" = Py.Ok (Py.VBool true) →
  decode loads unfollow
  = Py.Ok (raw_data2, Py.VStr "App\Events\FollowersUpdated", data2) →
  Py.getitem data2 "channel_id" = Py.Ok key2 →
  int_key key2 = Some n →
  Py.getitem data2 "followed" = Py.Ok other →
  other ≠ Py.VBool true →
  _watched_users c !! n = Some u →
  objects c !! u = Some (Py.VDict fields) →
  Py.dict_lookup "followers_count" fields = Some (Py.VInt count) →
  ((start loads [follow; unfollow] c).1 = Py.Ok tt
   ∧ objects (start loads [follow; unfollow] c).2 = objects c)
  ∧ ((start loads [unfollow; follow] c).1 = Py.Ok tt
     ∧ objects (start loads [unfollow; follow] c).2 = objects c).
Proof.
  intros Hdec1 Hkey1 Hn1 Hf1 Hdec2 Hkey2 Hn2 Hf2 Hother Hu Hobj Hold.
  assert (Py.is_True other = false) as Hnot.
  { destruct (Py.is_True other) eqn:E; [| reflexivity].
    by apply is_True_spec in E. }
  assert (∀ a b, (a = count + 1 ∧ b = a - 1) ∨ (a = count - 1 ∧ b = a + 1) →
     <[u := Py.VDict (Py.dict_set "followers_count" (Py.VInt b)
                        (Py.dict_set "followers_count" (Py.VInt a) fields))]>
       (<[u := Py.VDict (Py.dict_set "followers_count" (Py.VInt a) fields)]>
          (objects c))
     = objects c) as Hback.
  { intros a b Hab. assert (b = count) as -> by lia.
    rewrite insert_insert_eq, dict_set_set, (dict_set_id _ _ _ Hold).
    by apply insert_id. }
  assert (∀ k v (m : gmap positive Py.value), <[k := v]> m !! k = Some v) as Hins
    by (intros; apply lookup_insert_eq).
  split.
  - rewrite start_cons.
    rewrite (poll_event_followers_updated follow _ _ _ _ _ _ _ (Py.VInt (count + 1)) _ c
               Hdec1 Hkey1 Hn1 Hu Hobj Hold Hf1 eq_refl).
    cbv beta match. rewrite start_cons.
    match goal with
    | |- context [poll_event loads unfollow ?c1] =>
        rewrite (poll_event_followers_updated unfollow _ _ _ _ _ _ _
                   (Py.VInt (count + 1 - 1)) _ c1
                   Hdec2 Hkey2 Hn2 (Hu : _watched_users c1 !! n = Some u)
                   (Hins _ _ _) (dict_lookup_set_eq _ _ _) Hf2)
          by (by rewrite Hnot)
    end.
    simpl. split; [reflexivity |]. apply Hback. left. auto.
  - rewrite start_cons.
    erewrite (poll_event_followers_updated unfollow _ _ _ _ _ _ _
                (Py.VInt (count - 1)) _ c
                Hdec2 Hkey2 Hn2 Hu Hobj Hold Hf2); [| by rewrite Hnot].
    cbv beta match. rewrite start_cons.
    match goal with
    | |- context [poll_event loads follow ?c1] =>
        rewrite (poll_event_followers_updated follow _ _ _ _ _ _ _
                   (Py.VInt (count - 1 + 1)) _ c1
                   Hdec1 Hkey1 Hn1 (Hu : _watched_users c1 !! n = Some u)
                   (Hins _ _ _) (dict_lookup_set_eq _ _ _) Hf1 eq_refl)
    end.
    simpl. split; [reflexivity |]. apply Hback. right. auto.
Qed.

(** X9. A [FollowersUpdated] payload without [followed] raises [KeyError]
    only after the tracked user was looked up, and before the counter is
    touched: no object changes and neither [follow] nor [unfollow] is
    dispatched. *)
Theorem followers_updated_without_followed raw_msg raw_data fields key n u c :
  decode loads raw_msg
  = Py.Ok (raw_data, Py.VStr "App\Events\FollowersUpdated", Py.VDict fields) →
  Py.dict_lookup "channel_id" fields = Some key →
  int_key key = Some n →
  _watched_users c !! n = Some u →
  Py.dict_lookup "followed" fields = None →
  poll_event loads raw_msg c
  = (Py.Raise Py.KeyError,
     notify c (generic_notifications raw_data
                 (Py.VStr "App\Events\FollowersUpdated") (Py.VDict fields))).
Proof.
  intros Hdec Hkey Hn Hu Hf.
  rewrite poll_event_decode, Hdec.
  unfold match_event.
  repeat match goal with
         | |- context [if case ?s ?t then _ else _] =>
             change (case s t) with false; cbv iota
         end.
  rewrite case_true.
  unfold mbind, coro_bind, lift, watched_getitem; simpl.
  rewrite Hkey, (int_key_hashable _ _ Hn), Hn, Hu, Hf. reflexivity.
Qed.

(** X10. A tracked user whose [_data] has no [followers_count] makes the
    handler raise [KeyError], and one whose [followers_count] is not a
    number makes it raise [TypeError]; in both cases the object is left as
    it was and neither [follow] nor [unfollow] is dispatched. *)
Theorem followers_updated_bad_counter
  raw_msg raw_data data key n u fields followed c :
  decode loads raw_msg
  = Py.Ok (raw_data, Py.VStr "App\Events\FollowersUpdated", data) →
  Py.getitem data "channel_id" = Py.Ok key →
  int_key key = Some n →
  _watched_users c !! n = Some u →
  objects c !! u = Some (Py.VDict fields) →
  Py.getitem data "followed" = Py.Ok followed →
  let c' :=
    notify c (generic_notifications raw_data
                (Py.VStr "App\Events\FollowersUpdated") data) in
  (Py.dict_lookup "followers_count" fields = None →
   poll_event loads raw_msg c = (Py.Raise Py.KeyError, c'))
  ∧ (∀ old, Py.dict_lookup "followers_count" fields = Some old →
            Py.as_number old = None →
            poll_event loads raw_msg c = (Py.Raise Py.TypeError, c')).
Proof.
  intros Hdec Hkey Hn Hu Hobj Hf c'.
  split.
  - intros Hnone. rewrite poll_event_decode, Hdec.
    erewrite match_event_followers_updated_tracked; eauto.
    by erewrite iop_followers_count_missing.
  - intros old Hold Hnum. rewrite poll_event_decode, Hdec.
    erewrite match_event_followers_updated_tracked; eauto.
    destruct (add_sub_one_not_number old Hnum) as [Ha Hs].
    erewrite iop_followers_count_raises; eauto.
    by destruct (Py.is_True followed).
Qed.

(** X11. A [channel_id] that is a list or a map cannot be a key: the handler
    raises [TypeError], not [KeyError], before any lookup. *)
Theorem followers_updated_unhashable_channel raw_msg raw_data data key c :
  decode loads raw_msg
  = Py.Ok (raw_data, Py.VStr "App\Events\FollowersUpdated", data) →
  Py.getitem data "channel_id" = Py.Ok key →
  Py.hashable key = false →
  poll_event loads raw_msg c
  = (Py.Raise Py.TypeError,
     notify c (generic_notifications raw_data
                 (Py.VStr "App\Events\FollowersUpdated") data)).
Proof.
  intros Hdec Hkey Hh.
  rewrite poll_event_decode, Hdec.
  unfold match_event.
  repeat match goal with
         | |- context [if case ?s ?t then _ else _] =>
             change (case s t) with false; cbv iota
         end.
  rewrite case_true.
  unfold mbind, coro_bind, lift, watched_getitem.
  rewrite Hkey, Hh. reflexivity.
Qed.
End MoreFollowersUpdated.

Lemma follow_unfollow_round_trip_witness :
  ((start Json.loads [follow_frame; truthy_frame] tracking).1 = Py.Ok tt
   ∧ objects (start Json.loads [follow_frame; truthy_frame] tracking).2
     = objects tracking)
  ∧ ((start Json.loads [truthy_frame; follow_frame] tracking).1 = Py.Ok tt
     ∧ objects (start Json.loads [truthy_frame; follow_frame] tracking).2
       = objects tracking).
Proof.
  refine (follow_unfollow_round_trip Json.loads follow_frame truthy_frame
            _ _ (Py.VInt 5) _ _ (Py.VInt 5) (Py.VInt 1) 5 1%positive
            [("id", Py.VInt 9); ("followers_count", Py.VInt 3)] 3 tracking
            _ _ _ _ _ _ _ _ _ _ _ _);
    try (vm_compute; reflexivity).
  discriminate.
Defined.

Lemma followers_updated_without_followed_witness :
  poll_event Json.loads no_followed_frame tracking
  = (Py.Raise Py.KeyError,
     notify tracking
       (generic_notifications
          (Py.VDict
             [("event", Py.VStr "App\Events\FollowersUpdated");
              ("data", Py.VStr (Json.wire "{'channel_id':5}"))])
          (Py.VStr "App\Events\FollowersUpdated")
          (Py.VDict [("channel_id", Py.VInt 5)]))).
Proof.
  refine (followers_updated_without_followed Json.loads no_followed_frame
            _ _ (Py.VInt 5) 5 1%positive tracking _ _ _ _ _);
    vm_compute; reflexivity.
Defined.

Lemma followers_updated_bad_counter_witness :
  poll_event Json.loads follow_frame uncounted
  = (Py.Raise Py.KeyError,
     notify uncounted
       (generic_notifications
          (Py.VDict
             [("event", Py.VStr "App\Events\FollowersUpdated");
              ("data", Py.VStr (Json.wire "{'channel_id':5,'followed':true}"))])
          (Py.VStr "App\Events\FollowersUpdated")
          (Py.VDict [("channel_id", Py.VInt 5); ("followed", Py.VBool true)]))).
Proof.
  refine (proj1 (followers_updated_bad_counter Json.loads follow_frame
                   _ _ (Py.VInt 5) 5 1%positive [("id", Py.VInt 9)] (Py.VBool true)
                   uncounted _ _ _ _ _ _) _);
    vm_compute; reflexivity.
Defined.

Lemma followers_updated_unhashable_channel_witness :
  poll_event Json.loads list_channel_frame tracking
  = (Py.Raise Py.TypeError,
     notify tracking
       (generic_notifications
          (Py.VDict
             [("event", Py.VStr "App\Events\FollowersUpdated");
              ("data", Py.VStr (Json.wire "{'channel_id':[5],'followed':true}"))])
          (Py.VStr "App\Events\FollowersUpdated")
          (Py.VDict [("channel_id", Py.VList [Py.VInt 5]); ("followed", Py.VBool true)]))).
Proof.
  refine (followers_updated_unhashable_channel Json.loads list_channel_frame
            _ _ (Py.VList [Py.VInt 5]) tracking _ _ _);
    vm_compute; reflexivity.
Defined.

(** ** [==] as a relation *)

Lemma number_eqb_sym x y : Py.number_eqb x y = Py.number_eqb y x.
Proof.
  destruct x as [ | s | m e], y as [ | t | m' e']; simpl; try reflexivity.
  - by destruct s, t.
  - rewrite (Z.min_comm e' e). apply Z.eqb_sym.
Qed.

(** Two finite numbers are equal when their mantissas agree at any common
    exponent. *)
Lemma number_eqb_fin m e m' e' k :
  k ≤ e → k ≤ e' →
  Py.number_eqb (Py.NFin m e) (Py.NFin m' e') = true
  ↔ m * 2 ^ (e - k) = m' * 2 ^ (e' - k).
Proof.
  intros Hk Hk'. simpl. rewrite Z.eqb_eq.
  set (lo := Z.min e e').
  assert (k ≤ lo) by (unfold lo; lia).
  assert (lo ≤ e ∧ lo ≤ e') as [? ?] by (unfold lo; lia).
  replace (e - k) with ((e - lo) + (lo - k)) by lia.
  replace (e' - k) with ((e' - lo) + (lo - k)) by lia.
  rewrite !Z.pow_add_r by lia.
  rewrite !Z.mul_assoc.
  assert (2 ^ (lo - k) ≠ 0) by (apply Z.pow_nonzero; lia).
  split.
  - intros ->. reflexivity.
  - intros Heq. by apply Z.mul_cancel_r in Heq.
Qed.

Lemma number_eqb_trans x y z :
  Py.number_eqb x y = true → Py.number_eqb y z = true → Py.number_eqb x z = true.
Proof.
  destruct x as [ | s | m e], y as [ | t | m' e'], z as [ | r | m'' e''];
    try discriminate.
  - simpl. destruct s, t, r; auto.
  - set (k := Z.min e (Z.min e' e'')).
    rewrite (number_eqb_fin m e m' e' k), (number_eqb_fin m' e' m'' e'' k),
      (number_eqb_fin m e m'' e'' k) by (unfold k; lia).
    congruence.
Qed.

Lemma equal_numbers a b x y :
  Py.as_number a = Some x → Py.as_number b = Some y →
  Py.equal a b = Py.number_eqb x y.
Proof.
  destruct a, b; simpl; try discriminate; intros [= <-] [= <-]; reflexivity.
Qed.

(** On hashable values, which are the ids an entity can be expected to
    have, [==] is symmetric and transitive. *)
Lemma equal_sym a b :
  Py.hashable a = true → Py.hashable b = true → Py.equal a b = Py.equal b a.
Proof.
  destruct a, b; try discriminate; intros _ _;
    try reflexivity;
    try (cbn -[Py.number_eqb Py.number_of_float]; apply number_eqb_sym).
  apply String.eqb_sym.
Qed.

Lemma equal_trans a b c :
  Py.hashable a = true → Py.hashable b = true → Py.hashable c = true →
  Py.equal a b = true → Py.equal b c = true → Py.equal a c = true.
Proof.
  destruct a, b; try discriminate; intros _ _;
    destruct c; try discriminate; intros _;
    try reflexivity;
    try (cbn -[Py.number_eqb Py.number_of_float]; apply number_eqb_trans).
  cbn. rewrite !String.eqb_eq. congruence.
Qed.

Lemma equal_refl_int_str i :
  (∃ n, i = Py.VInt n) ∨ (∃ s, i = Py.VStr s) → Py.equal i i = true.
Proof.
  intros [[n ->] | [s ->]]; simpl.
  - apply Z.eqb_refl.
  - apply String.eqb_refl.
Qed.

(** [a == b] between two entities with ids. *)
Lemma op_eq_ids (a b : instance) (i j : Py.value) :
  getattr_id a = Py.Ok i →
  getattr_id b = Py.Ok j →
  op_eq a b
  = Some (Py.Ok (bool_decide (__class__ a = __class__ b) && Py.equal j i)).
Proof.
  intros Ha Hb.
  pose proof (getattr_id_lookup_eq _ _ Ha) as Ea.
  pose proof (getattr_id_lookup_eq _ _ Hb) as Eb.
  unfold op_eq. rewrite Ea, Eb; simpl.
  destruct (decide (__class__ a = __class__ b)) as [E|Hne].
  - rewrite !bool_decide_eq_true_2 by congruence. simpl.
    unfold __eq__, isinstance.
    rewrite E, issubclass_refl, Ha, Hb. reflexivity.
  - rewrite !bool_decide_eq_false_2 by congruence. simpl.
    unfold __eq__, isinstance.
    destruct (issubclass (__class__ b) (__class__ a)) eqn:Eba; simpl.
    + by rewrite (issubclass_antisym _ _ Hne Eba).
    + reflexivity.
Qed.

(** X12. The operator [==] is symmetric on entities with hashable ids, though
    the method [__eq__] is not: an [Author] is an instance of
    [PartialAuthor] and not the other way round. *)
Theorem op_eq_symmetric (a b : instance) (i j : Py.value) :
  getattr_id a = Py.Ok i →
  getattr_id b = Py.Ok j →
  Py.hashable i = true →
  Py.hashable j = true →
  op_eq a b = op_eq b a.
Proof.
  intros Ha Hb Hi Hj.
  rewrite (op_eq_ids a b i j Ha Hb), (op_eq_ids b a j i Hb Ha).
  rewrite (equal_sym j i Hj Hi).
  do 3 f_equal. apply bool_decide_ext. split; congruence.
Qed.

(** X13. [==] is transitive on entities with hashable ids. *)
Theorem op_eq_transitive (a b c : instance) (i j k : Py.value) :
  getattr_id a = Py.Ok i →
  getattr_id b = Py.Ok j →
  getattr_id c = Py.Ok k →
  Py.hashable i = true →
  Py.hashable j = true →
  Py.hashable k = true →
  op_eq a b = Some (Py.Ok true) →
  op_eq b c = Some (Py.Ok true) →
  op_eq a c = Some (Py.Ok true).
Proof.
  intros Ha Hb Hc Hi Hj Hk.
  rewrite (op_eq_ids a b i j Ha Hb), (op_eq_ids b c j k Hb Hc),
    (op_eq_ids a c i k Ha Hc).
  intros [= [Eab Hji]%andb_prop] [= [Ebc Hkj]%andb_prop].
  apply bool_decide_eq_true in Eab, Ebc.
  rewrite bool_decide_eq_true_2 by congruence. simpl.
  do 2 f_equal. by apply (equal_trans k j i).
Qed.

(** X14. An entity whose id is an int or a string equals itself. *)
Theorem op_eq_reflexive (a : instance) (i : Py.value) :
  getattr_id a = Py.Ok i →
  (∃ n, i = Py.VInt n) ∨ (∃ s, i = Py.VStr s) →
  op_eq a a = Some (Py.Ok true).
Proof.
  intros Ha Hi. rewrite (op_eq_ids a a i i Ha Ha).
  rewrite bool_decide_eq_true_2 by reflexivity.
  by rewrite equal_refl_int_str.
Qed.

(** X15. The user of a ban or unban event is constructed as a [PartialAuthor]
    and the author of a message as an [Author]: the two never compare
    equal, whatever their payloads, the same person included. *)
Theorem banned_user_never_equals_author (ban unban message : Py.value)
  (u v a : instance) :
  UserBannedEventData_user (new UserBannedEventData ban) = Py.Ok u →
  UserUnbannedEventData_user (new UserUnbannedEventData unban) = Py.Ok v →
  Message_author (new Message message) = Py.Ok a →
  (op_eq u a = Some (Py.Ok false) ∧ op_eq a u = Some (Py.Ok false))
  ∧ (op_eq v a = Some (Py.Ok false) ∧ op_eq a v = Some (Py.Ok false)).
Proof.
  unfold UserBannedEventData_user, UserUnbannedEventData_user, Message_author.
  simpl.
  destruct (Py.getitem ban "user"); [| discriminate].
  destruct (Py.getitem unban "user"); [| discriminate].
  destruct (Py.getitem message "sender"); [| discriminate].
  intros [= <-] [= <-] [= <-]. repeat split.
Qed.

Lemma op_eq_symmetric_witness :
  op_eq author_then partial_author = op_eq partial_author author_then.
Proof.
  apply (op_eq_symmetric author_then partial_author (Py.VInt 9) (Py.VInt 9));
    reflexivity.
Defined.

Lemma op_eq_transitive_witness : op_eq author_then author_later = Some (Py.Ok true).
Proof.
  apply (op_eq_transitive author_then author_now author_later
           (Py.VInt 9) (Py.VInt 9) (Py.VInt 9)); reflexivity.
Defined.

Lemma op_eq_reflexive_witness : op_eq author_then author_then = Some (Py.Ok true).
Proof.
  apply (op_eq_reflexive author_then (Py.VInt 9)); [reflexivity |].
  left. eexists. reflexivity.
Defined.

Lemma banned_user_never_equals_author_witness :
  op_eq partial_author author_then = Some (Py.Ok false)
  ∧ op_eq author_then partial_author = Some (Py.Ok false).
Proof.
  apply (banned_user_never_equals_author ban_event ban_event
           (Py.VDict message_fields) partial_author partial_author author_then);
    reflexivity.
Defined.

(** ** Payloads as kick/types/message.py declares them *)

Lemma has_exactly_absent ks fields k :
  has_exactly ks fields = true → k ∉ ks → Py.dict_lookup k fields = None.
Proof.
  unfold has_exactly. intros [Hall _]%andb_prop Hk.
  induction fields as [|[k0 v0] fields IH]; simpl in *; [reflexivity |].
  apply andb_prop in Hall as [Hk0%bool_decide_eq_true Hall].
  destruct (String.eqb k k0) eqn:E.
  - apply String.eqb_eq in E as ->. by destruct Hk.
  - by apply IH.
Qed.

Lemma has_exactly_present ks fields k :
  has_exactly ks fields = true → k ∈ ks → is_Some (Py.dict_lookup k fields).
Proof.
  unfold has_exactly. intros [_ Hall]%andb_prop Hk.
  rewrite forallb_forall in Hall.
  apply list_elem_of_In, Hall in Hk. by apply bool_decide_eq_true in Hk.
Qed.

(** X16. [MessageDeletedEventData] reads [message], [aiModerated] and
    [violatedRules], none of which [MessageDeletedPayload] declares: over
    a payload with exactly the declared keys [message_id] raises
    [KeyError], [ai_moderated] is [False] whatever the payload says under
    [ai_moderated], and [violated_rules] is [None]; only [id] is read as
    declared. *)
Theorem deleted_payload_as_declared (fields : list (string * Py.value)) :
  has_exactly MessageDeletedPayload_keys fields = true →
  let self := new MessageDeletedEventData (Py.VDict fields) in
  MessageDeletedEventData_message_id self = Py.Raise Py.KeyError
  ∧ MessageDeletedEventData_ai_moderated self = Py.Ok false
  ∧ MessageDeletedEventData_violated_rules self = Py.Ok Py.VNone
  ∧ ∃ v, MessageDeletedEventData_id self = Py.Ok v.
Proof.
  intros H self.
  assert (Py.dict_lookup "message" fields = None) as Hm.
  { apply (has_exactly_absent _ _ _ H). unfold MessageDeletedPayload_keys.
    rewrite !elem_of_cons, elem_of_nil. intros [|[|[|[|]]]]; done. }
  assert (Py.dict_lookup "aiModerated" fields = None) as Ha.
  { apply (has_exactly_absent _ _ _ H). unfold MessageDeletedPayload_keys.
    rewrite !elem_of_cons, elem_of_nil. intros [|[|[|[|]]]]; done. }
  assert (Py.dict_lookup "violatedRules" fields = None) as Hv.
  { apply (has_exactly_absent _ _ _ H). unfold MessageDeletedPayload_keys.
    rewrite !elem_of_cons, elem_of_nil. intros [|[|[|[|]]]]; done. }
  destruct (has_exactly_present _ _ "id" H) as [v Hid].
  { unfold MessageDeletedPayload_keys. apply elem_of_cons. by left. }
  unfold MessageDeletedEventData_message_id, MessageDeletedEventData_ai_moderated,
    MessageDeletedEventData_violated_rules, MessageDeletedEventData_id, self;
    simpl.
  rewrite Hm, Ha, Hv, Hid. simpl. eauto.
Qed.

Lemma deleted_payload_as_declared_witness :
  MessageDeletedEventData_message_id
    (new MessageDeletedEventData (Py.VDict declared_deleted_fields))
  = Py.Raise Py.KeyError
  ∧ MessageDeletedEventData_ai_moderated
      (new MessageDeletedEventData (Py.VDict declared_deleted_fields))
    = Py.Ok false.
Proof.
  destruct (deleted_payload_as_declared declared_deleted_fields eq_refl)
    as (Hm & Ha & _).
  split; [exact Hm | exact Ha].
Defined.

(** X17. [PinnedMessage.pinned_by] reads [pinnedBy] where [MessagePinPayload]
    declares [pinned_by]: over a payload with exactly the declared keys
    it raises [KeyError], while [message] is a [Message] over the
    payload's [message]. *)
Theorem pin_payload_as_declared (fields : list (string * Py.value)) :
  has_exactly MessagePinPayload_keys fields = true →
  let self := new PinnedMessage (Py.VDict fields) in
  PinnedMessage_pinned_by self = Py.Raise Py.KeyError
  ∧ ∃ m, Py.dict_lookup "message" fields = Some m
         ∧ PinnedMessage_message self = Py.Ok (new Message m).
Proof.
  intros H self.
  assert (Py.dict_lookup "pinnedBy" fields = None) as Hp.
  { apply (has_exactly_absent _ _ _ H). unfold MessagePinPayload_keys.
    rewrite !elem_of_cons, elem_of_nil. intros [|[|[|]]]; done. }
  destruct (has_exactly_present _ _ "message" H) as [m Hm].
  { unfold MessagePinPayload_keys. apply elem_of_cons. by left. }
  unfold PinnedMessage_pinned_by, PinnedMessage_message, self; simpl.
  rewrite Hp, Hm. simpl. eauto.
Qed.

Lemma pin_payload_as_declared_witness :
  PinnedMessage_pinned_by (new PinnedMessage (Py.VDict declared_pin_fields))
  = Py.Raise Py.KeyError
  ∧ PinnedMessage_message (new PinnedMessage (Py.VDict declared_pin_fields))
    = Py.Ok (new Message (Py.VDict message_fields)).
Proof.
  destruct (pin_payload_as_declared declared_pin_fields eq_refl)
    as (Hp & m & Hm & Hmsg).
  split; [exact Hp |].
  injection Hm as <-. exact Hmsg.
Defined.

(** ** Topics of the subscription manager *)

Lemma string_length_app s t :
  String.length (s +:+ t) = (String.length s + String.length t)%nat.
Proof.
  induction s as [|a s IH]; [reflexivity |].
  change (String.length (String a (s +:+ t))
          = S (String.length s + String.length t)).
  simpl. by rewrite IH.
Qed.

Lemma string_app_inv_tail s1 s2 t : s1 +:+ t = s2 +:+ t → s1 = s2.
Proof.
  revert s2. induction s1 as [|a s1 IH]; intros [|b s2] H.
  - reflexivity.
  - apply (f_equal String.length) in H.
    rewrite (string_length_app (String b s2) t) in H.
    change (String.length t = S (String.length s2 + String.length t)) in H. lia.
  - apply (f_equal String.length) in H.
    rewrite (string_length_app (String a s1) t) in H.
    change (S (String.length s1 + String.length t) = String.length t) in H. lia.
  - change (String a (s1 +:+ t) = String b (s2 +:+ t)) in H.
    injection H as -> H. f_equal. by apply IH.
Qed.

Lemma send_json_inj payload payload' c :
  send_json payload c = send_json payload' c → payload = payload'.
Proof.
  unfold send_json. intros [= H]. by apply app_inv_head in H as [= ->].
Qed.

(** X18. Topics do not collide: distinct chatrooms and distinct channels get
    distinct control frames, a channel frame is never a chatroom frame,
    and subscribing to a chatroom never sends what unsubscribing does. *)
Theorem subscription_frames_distinct (a b : Z) (c : client) :
  (watch_channel a c = watch_channel b c → a = b)
  ∧ (subscribe_to_chatroom a c = subscribe_to_chatroom b c → a = b)
  ∧ (unsubscribe_to_chatroom a c = unsubscribe_to_chatroom b c → a = b)
  ∧ watch_channel a c ≠ subscribe_to_chatroom b c
  ∧ subscribe_to_chatroom a c ≠ unsubscribe_to_chatroom b c.
Proof.
  repeat split.
  - intros [= H]%send_json_inj.
    change (pretty a = pretty b) in H. by apply (inj pretty) in H.
  - intros [= H]%send_json_inj.
    change (pretty a +:+ ".v2" = pretty b +:+ ".v2") in H.
    by apply string_app_inv_tail, (inj pretty) in H.
  - intros [= H]%send_json_inj.
    change (pretty a +:+ ".v2" = pretty b +:+ ".v2") in H.
    by apply string_app_inv_tail, (inj pretty) in H.
  - intros [= H]%send_json_inj.
  - intros H%send_json_inj. discriminate.
Qed.

(** ** Envelopes and payloads of the wrong shape *)

Section Envelopes.
Variable loads : string → option Py.value.

(** X19. An outer frame that decodes to something other than the expected
    envelope makes [poll_event] raise before anything is dispatched:
    [TypeError] when it is not an object or its [data] is not a string
    (an inner payload sent already parsed is refused), [KeyError] when
    [data] or, with a decodable [data], [event] is missing. *)
Theorem envelope_errors raw_msg raw_data c :
  loads raw_msg = Some raw_data →
  ((∀ fields, raw_data ≠ Py.VDict fields) →
   poll_event loads raw_msg c = (Py.Raise Py.TypeError, c))
  ∧ (∀ fields, raw_data = Py.VDict fields →
       (Py.dict_lookup "data" fields = None →
        poll_event loads raw_msg c = (Py.Raise Py.KeyError, c))
       ∧ (∀ v, Py.dict_lookup "data" fields = Some v →
               (∀ s, v ≠ Py.VStr s) →
               poll_event loads raw_msg c = (Py.Raise Py.TypeError, c))
       ∧ (∀ s data, Py.dict_lookup "data" fields = Some (Py.VStr s) →
                    loads s = Some data →
                    Py.dict_lookup "event" fields = None →
                    poll_event loads raw_msg c = (Py.Raise Py.KeyError, c))).
Proof.
  intros Hraw. split; [| intros fields ->; repeat split].
  - intros Hshape. apply poll_event_raises.
    unfold decode, json. rewrite Hraw. simpl.
    destruct raw_data; try reflexivity. by destruct (Hshape fields).
  - intros Hd. apply poll_event_raises.
    unfold decode, json. rewrite Hraw. simpl. by rewrite Hd.
  - intros v Hd Hv. apply poll_event_raises.
    unfold decode, json. rewrite Hraw. simpl. rewrite Hd. simpl.
    destruct v; try reflexivity. by destruct (Hv s).
  - intros s data Hd Hs He. apply poll_event_raises.
    unfold decode, json. rewrite Hraw. simpl. rewrite Hd. simpl.
    unfold json. rewrite Hs. simpl. by rewrite He.
Qed.

(** X20. Entities are views: a chat message whose inner payload is not an
    object is dispatched all the same, and the error is met by whoever
    reads the message, as [TypeError] from the fields read by subscript
    and [AttributeError] from [is_reply] and [references]. *)
Theorem message_errors_are_deferred raw_msg raw_data data c :
  decode loads raw_msg
  = Py.Ok (raw_data, Py.VStr "App\Events\ChatMessageEvent", data) →
  (∀ fields, data ≠ Py.VDict fields) →
  let message := new Message data in
  poll_event loads raw_msg c
  = (Py.Ok tt,
     notify c (generic_notifications raw_data
                 (Py.VStr "App\Events\ChatMessageEvent") data
               ++ [("message", [Entity message])]))
  ∧ Message_id message = Py.Raise Py.TypeError
  ∧ Message_content message = Py.Raise Py.TypeError
  ∧ Message_chatroom_id message = Py.Raise Py.TypeError
  ∧ Message_author message = Py.Raise Py.TypeError
  ∧ Message_is_reply message = Py.Raise Py.AttributeError
  ∧ Message_references message = Py.Raise Py.AttributeError.
Proof.
  intros Hdec Hshape message. split.
  - rewrite poll_event_decode, Hdec. unfold match_event.
    change (case (Py.VStr "App\Events\ChatMessageEvent")
              "App\Events\ChatMessageEvent") with true. cbv iota.
    by rewrite dispatch_eq, notify_notify.
  - unfold Message_id, Message_content, Message_chatroom_id, Message_author,
      Message_is_reply, Message_references, message; simpl.
    destruct data; try (repeat split; reflexivity).
    by destruct (Hshape fields).
Qed.
End Envelopes.

Lemma envelope_errors_witness :
  poll_event Json.loads parsed_data_frame tracking = (Py.Raise Py.TypeError, tracking).
Proof.
  destruct (envelope_errors Json.loads parsed_data_frame
              (Py.VDict [("event", Py.VStr "App\Events\PinnedMessageDeletedEvent");
                         ("data", Py.VDict [])])
              tracking) as (_ & H); [vm_compute; reflexivity |].
  destruct (H _ eq_refl) as (_ & Hdata & _).
  apply (Hdata (Py.VDict [])); [reflexivity | discriminate].
Defined.

Lemma message_errors_are_deferred_witness :
  (poll_event Json.loads list_message_frame tracking).1 = Py.Ok tt
  ∧ Message_id (new Message (Py.VList [Py.VInt 1])) = Py.Raise Py.TypeError
  ∧ Message_is_reply (new Message (Py.VList [Py.VInt 1])) = Py.Raise Py.AttributeError.
Proof.
  destruct (message_errors_are_deferred Json.loads list_message_frame
              (Py.VDict [("event", Py.VStr "App\Events\ChatMessageEvent");
                         ("data", Py.VStr "[1]")])
              (Py.VList [Py.VInt 1]) tracking)
    as (Hp & Hid & _ & _ & _ & Hr & _);
    [vm_compute; reflexivity | discriminate |].
  split; [by rewrite Hp | split; [exact Hid | exact Hr]].
Defined.
